(** * Offline-first synchronisation engine of the task-manager PWA

    Shallow embedding of
      - [lib/db.ts]    (the IndexedDB object stores [tasks] and [syncQueue]),
      - [lib/api.ts]   (the HTTP client, as far as the engine calls it),
      - [stores/useTaskStore.ts] (the zustand presentation store),
      - [lib/sync.ts]  (the [syncManager]),
      - the handlers of [AddTaskForm], [TaskList] that reach the engine.

    Conventions of the embedding.
      - An IndexedDB object store with [keyPath: 'id'] is a list of records
        kept in ascending order of the key; [getAll] returns the records in
        that order, [put] inserts or replaces by key.  Keys are strings and
        are compared code unit by code unit, which is [String.compare] on
        the strings used here.
      - [async] functions run to completion one after the other (one event
        loop, no two engine calls interleaved); a rejected promise is the
        outcome [Throw].  [Promise.all(xs.map(f))] is the calls [f x] in
        the order of the array: in [bulkPut] and [clearSynced] they are
        requests of one transaction, served in the order they were placed;
        in [syncWithBackend] each [markSynced] works on the record of its
        own key.
      - The results of [Date.now()], [Math.random()] and [new Date()] are
        arguments of the operation that reads them.
      - The remote service is a record of answers, one per endpoint; every
        request issued is appended to the [network] log of the world.
      - [number] is [Z]: versions are small integers. *)

From Stdlib Require Import List String Ascii ZArith Bool Lia.
From Stdlib Require Import Sorted OrderedTypeEx.
Import ListNotations.

Local Open Scope string_scope.
Local Open Scope Z_scope.

Set Implicit Arguments.

(* ------------------------------------------------------------------ *)
(** ** Domain types ([types/index.ts]) *)

Module Task.
Record t : Type := mk {
  id : string;
  title : string;
  description : option string;
  completed : bool;
  createdAt : string;
  updatedAt : string;
  userId : string;
  version : Z
}.
End Task.

(** [Partial<Task>]: every field may be absent. *)
Module PartialTask.
Record t : Type := mk {
  id : option string;
  title : option string;
  description : option string;
  completed : option bool;
  createdAt : option string;
  updatedAt : option string;
  userId : option string;
  version : option Z
}.

(** The object literal [{}]. *)
Definition empty : t := mk None None None None None None None None.

(** A full task used where a [Partial<Task>] is expected. *)
Definition of_task (k : Task.t) : t :=
  mk (Some (Task.id k)) (Some (Task.title k)) (Task.description k)
     (Some (Task.completed k)) (Some (Task.createdAt k))
     (Some (Task.updatedAt k)) (Some (Task.userId k))
     (Some (Task.version k)).
End PartialTask.

Definition or_else {A : Type} (o : option A) (d : A) : A :=
  match o with Some a => a | None => d end.

(** The object spread [{ ...task, ...updates }]. *)
Definition spread (task : Task.t) (updates : PartialTask.t) : Task.t :=
  Task.mk
    (or_else (PartialTask.id updates) (Task.id task))
    (or_else (PartialTask.title updates) (Task.title task))
    (match PartialTask.description updates with
     | Some d => Some d
     | None => Task.description task
     end)
    (or_else (PartialTask.completed updates) (Task.completed task))
    (or_else (PartialTask.createdAt updates) (Task.createdAt task))
    (or_else (PartialTask.updatedAt updates) (Task.updatedAt task))
    (or_else (PartialTask.userId updates) (Task.userId task))
    (or_else (PartialTask.version updates) (Task.version task)).

Definition with_updatedAt (now : string) (k : Task.t) : Task.t :=
  Task.mk (Task.id k) (Task.title k) (Task.description k) (Task.completed k)
          (Task.createdAt k) now (Task.userId k) (Task.version k).

Definition with_version (v : Z) (k : Task.t) : Task.t :=
  Task.mk (Task.id k) (Task.title k) (Task.description k) (Task.completed k)
          (Task.createdAt k) (Task.updatedAt k) (Task.userId k) v.

Inductive OperationKind : Type := create | update | delete.

Module SyncOperation.
Record t : Type := mk {
  id : string;
  operation : OperationKind;
  taskId : string;
  data : PartialTask.t;
  timestamp : string;
  synced : bool
}.

(** [operation.synced = true] on a record read from the store. *)
Definition set_synced (o : t) : t :=
  mk (id o) (operation o) (taskId o) (data o) (timestamp o) true.
End SyncOperation.

Record ApiError : Type := mkApiError {
  message : string;
  code : option string;
  status : option Z
}.

(** What a rejected promise carries. *)
Inductive Exn : Type :=
| JsError (msg : string)
| ApiFailure (e : ApiError).

(* ------------------------------------------------------------------ *)
(** ** An IndexedDB object store with an in-line key *)

Section ObjectStore.
Variable A : Type.
Variable keyPath : A -> string.

(** [store.put(v)]: insert, or replace the record with the same key. *)
Fixpoint db_put (v : A) (s : list A) : list A :=
  match s with
  | [] => [v]
  | x :: s' =>
      match String.compare (keyPath v) (keyPath x) with
      | Lt => v :: s
      | Eq => v :: s'
      | Gt => x :: db_put v s'
      end
  end.

(** [store.get(k)]. *)
Fixpoint db_get (k : string) (s : list A) : option A :=
  match s with
  | [] => None
  | x :: s' => if String.eqb k (keyPath x) then Some x else db_get k s'
  end.

(** [store.delete(k)]: no effect when the key is absent. *)
Definition db_delete (k : string) (s : list A) : list A :=
  filter (fun x => negb (String.eqb k (keyPath x))) s.

(** [store.getAll()]: every record, in ascending key order. *)
Definition db_getAll (s : list A) : list A := s.

(** The records of a store are strictly increasing in their keys. *)
Definition key_lt (x y : A) : Prop :=
  String.compare (keyPath x) (keyPath y) = Lt.

Definition wf_store (s : list A) : Prop := StronglySorted key_lt s.
End ObjectStore.

(* ------------------------------------------------------------------ *)
(** ** The presentation store ([stores/useTaskStore.ts]) *)

Inductive SyncStatus : Type := idle | syncing | success | error_status.

Module useTaskStore.
Record State : Type := mk {
  tasks : list Task.t;
  loading : bool;
  error : option string;
  syncStatus : SyncStatus;
  isOffline : bool
}.

Definition initial : State := mk [] false None idle false.

Definition setTasks (l : list Task.t) (s : State) : State :=
  mk l (loading s) (error s) (syncStatus s) (isOffline s).

Definition addTask (k : Task.t) (s : State) : State :=
  mk (tasks s ++ [k]) (loading s) (error s) (syncStatus s) (isOffline s).

Definition updateTask (id : string) (updates : PartialTask.t) (s : State)
  : State :=
  mk (map (fun task =>
             if String.eqb (Task.id task) id
             then with_version (Task.version task + 1) (spread task updates)
             else task)
          (tasks s))
     (loading s) (error s) (syncStatus s) (isOffline s).

Definition deleteTask (id : string) (s : State) : State :=
  mk (filter (fun task => negb (String.eqb (Task.id task) id)) (tasks s))
     (loading s) (error s) (syncStatus s) (isOffline s).

Definition setLoading (b : bool) (s : State) : State :=
  mk (tasks s) b (error s) (syncStatus s) (isOffline s).

Definition setError (e : option string) (s : State) : State :=
  mk (tasks s) (loading s) e (syncStatus s) (isOffline s).

Definition setSyncStatus (st : SyncStatus) (s : State) : State :=
  mk (tasks s) (loading s) (error s) st (isOffline s).

Definition setOffline (b : bool) (s : State) : State :=
  mk (tasks s) (loading s) (error s) (syncStatus s) b.
End useTaskStore.

(* ------------------------------------------------------------------ *)
(** ** Requests seen by the remote service ([lib/api.ts]) *)

(** Body of [POST /tasks/]. *)
Record CreateBody : Type := mkCreateBody {
  cb_title : string;
  cb_description : option string;
  cb_priority : string;
  cb_status : string;
  cb_category : string;
  cb_tags : list string
}.

(** Body of [PUT /tasks/{id}]: the fields [api.tasks.update] copies out of
    its argument.  The remaining ones it names ([status], [priority],
    [dueDate], [recursion], [category], [tags]) do not exist on a
    [Partial<Task>], are [undefined], and are dropped by [JSON.stringify]. *)
Record UpdateBody : Type := mkUpdateBody {
  ub_title : option string;
  ub_description : option string;
  ub_completed : option bool
}.

Inductive Request : Type :=
| GET_tasks
| GET_task (id : string)
| POST_tasks (body : CreateBody)
| PUT_task (id : string) (body : UpdateBody)
| DELETE_task (id : string)
| POST_sync (operations : list SyncOperation.t).

(** Requests that change the state of the remote service. *)
Definition is_write (r : Request) : bool :=
  match r with
  | GET_tasks | GET_task _ => false
  | _ => true
  end.

Module SyncResult.
Record t : Type := mk {
  synced : Z;
  conflicts : list Task.t
}.
End SyncResult.

Record DeleteAck : Type := mkDeleteAck {
  ack_message : string;
  ack_id : string
}.

(** The answers of the remote service: [inl] is a failed call (network
    error or a status outside 2xx), [inr] the parsed response. *)
Record Remote : Type := mkRemote {
  on_list : ApiError + list Task.t;
  on_get : string -> ApiError + Task.t;
  on_create : CreateBody -> ApiError + Task.t;
  on_update : string -> UpdateBody -> ApiError + Task.t;
  on_delete : string -> ApiError + DeleteAck;
  on_sync : list SyncOperation.t -> ApiError + SyncResult.t
}.

(* ------------------------------------------------------------------ *)
(** ** The world and the monad of [async] functions *)

Record World : Type := mkWorld {
  db_tasks : list Task.t;                  (* object store 'tasks' *)
  db_syncQueue : list SyncOperation.t;     (* object store 'syncQueue' *)
  taskStore : useTaskStore.State;          (* zustand store *)
  network : list Request                   (* requests sent, oldest first *)
}.

Definition initial_world : World :=
  mkWorld [] [] useTaskStore.initial [].

Inductive outcome (A : Type) : Type :=
| Ok (a : A)
| Throw (e : Exn).
Arguments Throw {A} e.

Definition M (A : Type) : Type := World -> outcome A * World.

Definition ret {A : Type} (a : A) : M A := fun w => (Ok a, w).

Definition throw {A : Type} (e : Exn) : M A := fun w => (Throw e, w).

Definition bind {A B : Type} (c : M A) (k : A -> M B) : M B :=
  fun w =>
    match c w with
    | (Ok a, w') => k a w'
    | (Throw e, w') => (Throw e, w')
    end.

(** [try { c } catch (e) { h e }]. *)
Definition try_catch {A : Type} (c : M A) (h : Exn -> M A) : M A :=
  fun w =>
    match c w with
    | (Ok a, w') => (Ok a, w')
    | (Throw e, w') => h e w'
    end.

(** [try { c } finally { f }]. *)
Definition finally {A : Type} (c : M A) (f : M unit) : M A :=
  fun w =>
    match c w with
    | (r, w') =>
        match f w' with
        | (Ok _, w'') => (r, w'')
        | (Throw e, w'') => (Throw e, w'')
        end
    end.

Declare Scope async_scope.
Delimit Scope async_scope with async.
Notation "x <- c ;; k" := (bind c (fun x => k))
  (at level 100, c at next level, right associativity) : async_scope.
Notation "c ;; k" := (bind c (fun _ => k))
  (at level 100, right associativity) : async_scope.
Local Open Scope async_scope.

(** A sequence of awaited calls, one per element. *)
Fixpoint for_each {A : Type} (f : A -> M unit) (l : list A) : M unit :=
  match l with
  | [] => ret tt
  | x :: l' => f x ;; for_each f l'
  end.

Definition run {A : Type} (c : M A) (w : World) : World := snd (c w).
Definition result {A : Type} (c : M A) (w : World) : outcome A := fst (c w).

(** [useTaskStore.getState().action(...)]. *)
Definition dispatch (f : useTaskStore.State -> useTaskStore.State) : M unit :=
  fun w => (Ok tt,
            mkWorld (db_tasks w) (db_syncQueue w) (f (taskStore w)) (network w)).

Definition getState : M useTaskStore.State :=
  fun w => (Ok (taskStore w), w).

(* ------------------------------------------------------------------ *)
(** ** [lib/db.ts] *)

Definition set_db_tasks (s : list Task.t) (w : World) : World :=
  mkWorld s (db_syncQueue w) (taskStore w) (network w).

Definition set_db_syncQueue (q : list SyncOperation.t) (w : World) : World :=
  mkWorld (db_tasks w) q (taskStore w) (network w).

Module taskDB.
Definition getAll : M (list Task.t) :=
  fun w => (Ok (db_getAll (db_tasks w)), w).

Definition get (id : string) : M (option Task.t) :=
  fun w => (Ok (db_get Task.id id (db_tasks w)), w).

Definition put (task : Task.t) : M unit :=
  fun w => (Ok tt, set_db_tasks (db_put Task.id task (db_tasks w)) w).

Definition delete (id : string) : M unit :=
  fun w => (Ok tt, set_db_tasks (db_delete Task.id id (db_tasks w)) w).

Definition clear : M unit :=
  fun w => (Ok tt, set_db_tasks [] w).

(** One [tx.store.put] per element, in the order of the array. *)
Definition bulkPut (tasks : list Task.t) : M unit :=
  for_each put tasks.
End taskDB.

Module syncQueueDB.
Definition getAll : M (list SyncOperation.t) :=
  fun w => (Ok (db_getAll (db_syncQueue w)), w).

Definition getUnsynced : M (list SyncOperation.t) :=
  all <- getAll ;;
  ret (filter (fun op => negb (SyncOperation.synced op)) all).

Definition add (operation : SyncOperation.t) : M unit :=
  fun w => (Ok tt,
            set_db_syncQueue
              (db_put SyncOperation.id operation (db_syncQueue w)) w).

Definition markSynced (id : string) : M unit :=
  fun w =>
    match db_get SyncOperation.id id (db_syncQueue w) with
    | Some operation =>
        (Ok tt,
         set_db_syncQueue
           (db_put SyncOperation.id (SyncOperation.set_synced operation)
                   (db_syncQueue w)) w)
    | None => (Ok tt, w)
    end.

Definition delete (id : string) : M unit :=
  fun w => (Ok tt,
            set_db_syncQueue
              (db_delete SyncOperation.id id (db_syncQueue w)) w).

Definition clear : M unit :=
  fun w => (Ok tt, set_db_syncQueue [] w).

Definition clearSynced : M unit :=
  all <- getAll ;;
  for_each (fun op => delete (SyncOperation.id op))
           (filter SyncOperation.synced all).
End syncQueueDB.

(* ------------------------------------------------------------------ *)
(** ** [lib/api.ts] *)

(** [fetchApi]: the request goes out, then the promise resolves with the
    parsed body or rejects with an [ApiError]. *)
Definition fetchApi {A : Type} (req : Request) (answer : ApiError + A) : M A :=
  fun w =>
    let w' := mkWorld (db_tasks w) (db_syncQueue w) (taskStore w)
                      (network w ++ [req]) in
    match answer with
    | inr a => (Ok a, w')
    | inl e => (Throw (ApiFailure e), w')
    end.

(** The argument of [api.tasks.create] as the form builds it. *)
Record TaskData : Type := mkTaskData {
  td_title : string;
  td_description : option string
}.

(** The JSON body [api.tasks.create] sends: the two fields of the form and
    the defaults for the fields the form does not set. *)
Definition create_body (data : TaskData) : CreateBody :=
  mkCreateBody (td_title data) (td_description data)
               "medium" "pending" "General" [].

(** The JSON body [api.tasks.update] sends. *)
Definition update_body (data : PartialTask.t) : UpdateBody :=
  mkUpdateBody (PartialTask.title data) (PartialTask.description data)
               (PartialTask.completed data).

Module api.
Section Client.
Variable remote : Remote.

Definition tasks_list : M (list Task.t) :=
  fetchApi GET_tasks (on_list remote).

Definition tasks_get (id : string) : M Task.t :=
  fetchApi (GET_task id) (on_get remote id).

Definition tasks_create (data : TaskData) : M Task.t :=
  fetchApi (POST_tasks (create_body data))
           (on_create remote (create_body data)).

Definition tasks_update (id : string) (data : PartialTask.t) : M Task.t :=
  fetchApi (PUT_task id (update_body data))
           (on_update remote id (update_body data)).

Definition tasks_delete (id : string) : M DeleteAck :=
  fetchApi (DELETE_task id) (on_delete remote id).

Definition sync_syncOperations (operations : list SyncOperation.t)
  : M SyncResult.t :=
  fetchApi (POST_sync operations) (on_sync remote operations).
End Client.
End api.

(* ------------------------------------------------------------------ *)
(** ** [lib/sync.ts] *)

Module syncManager.
(** [tempId] and [opId] are the two results of [generateId()], [now] is
    [new Date().toISOString()]. *)
Definition createTaskOffline (tempId now opId : string) (data : TaskData)
  : M Task.t :=
  let task := Task.mk tempId (td_title data) (td_description data) false
                      now now "temp" 1 in
  taskDB.put task ;;
  let operation := SyncOperation.mk opId create (Task.id task)
                     (PartialTask.of_task task) now false in
  syncQueueDB.add operation ;;
  dispatch (useTaskStore.addTask task) ;;
  ret task.

Definition updateTaskOffline (now opId : string)
           (id : string) (updates : PartialTask.t) : M unit :=
  task <- taskDB.get id ;;
  match task with
  | None => throw (JsError "Task not found")
  | Some task =>
      let updatedTask :=
        with_version (Task.version task + 1)
          (with_updatedAt now (spread task updates)) in
      taskDB.put updatedTask ;;
      let operation := SyncOperation.mk opId update id updates
                         (Task.updatedAt updatedTask) false in
      syncQueueDB.add operation ;;
      dispatch (useTaskStore.updateTask id updates)
  end.

Definition deleteTaskOffline (opId now : string) (id : string) : M unit :=
  let operation := SyncOperation.mk opId delete id PartialTask.empty
                     now false in
  syncQueueDB.add operation ;;
  taskDB.delete id ;;
  dispatch (useTaskStore.deleteTask id).

Section Online.
Variable remote : Remote.

Definition syncWithBackend : M SyncResult.t :=
  try_catch
    (dispatch (useTaskStore.setSyncStatus syncing) ;;
     operations <- syncQueueDB.getUnsynced ;;
     if Nat.eqb (List.length operations) 0 then
       dispatch (useTaskStore.setSyncStatus success) ;;
       ret (SyncResult.mk 0 [])
     else
       result <- api.sync_syncOperations remote operations ;;
       for_each (fun op => syncQueueDB.markSynced (SyncOperation.id op))
                operations ;;
       syncQueueDB.clearSynced ;;
       dispatch (useTaskStore.setSyncStatus success) ;;
       dispatch (useTaskStore.setOffline false) ;;
       ret result)
    (fun _ =>
       dispatch (useTaskStore.setSyncStatus error_status) ;;
       dispatch (useTaskStore.setOffline true) ;;
       ret (SyncResult.mk 0 [])).

Definition loadTasks : M unit :=
  finally
    (try_catch
       (dispatch (useTaskStore.setLoading true) ;;
        try_catch
          (tasks <- api.tasks_list remote ;;
           dispatch (useTaskStore.setTasks tasks) ;;
           taskDB.bulkPut tasks ;;
           dispatch (useTaskStore.setOffline false))
          (fun _ =>
             tasks <- taskDB.getAll ;;
             dispatch (useTaskStore.setTasks tasks) ;;
             dispatch (useTaskStore.setOffline true)))
       (fun _ =>
          dispatch (useTaskStore.setError (Some "Failed to load tasks"))))
    (dispatch (useTaskStore.setLoading false)).

Definition resolveConflict (taskId : string) (useLocal : bool) : M unit :=
  if useLocal then
    localTask <- taskDB.get taskId ;;
    match localTask with
    | Some localTask =>
        api.tasks_update remote taskId (PartialTask.of_task localTask) ;;
        ret tt
    | None => ret tt
    end
  else
    remoteTask <- api.tasks_get remote taskId ;;
    taskDB.put remoteTask ;;
    dispatch (useTaskStore.updateTask taskId
                (PartialTask.of_task remoteTask)).

(** [onLine] is [navigator.onLine]. *)
Definition autoSync (onLine : bool) : M unit :=
  if onLine then syncWithBackend ;; ret tt else ret tt.
End Online.
End syncManager.

(** [OfflineIndicator.handleSync], the "sync now" button: the value
    [syncWithBackend] resolves with is not used. *)
Definition handleSync (remote : Remote) : M unit :=
  syncManager.syncWithBackend remote ;; ret tt.

(* ------------------------------------------------------------------ *)
(** ** The handlers of the presentation layer *)

(** [AddTaskForm]: the three pieces of component state. *)
Record Form : Type := mkForm {
  f_title : string;
  f_description : string;
  f_isSubmitting : bool
}.

(** The values read from the clock and the random generator during one
    handler call: the two [generateId()] results and the date. *)
Record Fresh : Type := mkFresh {
  tempId : string;
  opId : string;
  now : string
}.

(** [String.prototype.trim] on strings whose white space is ASCII. *)
Definition is_space (c : ascii) : bool :=
  match nat_of_ascii c with
  | 9%nat | 10%nat | 11%nat | 12%nat | 13%nat | 32%nat => true
  | _ => false
  end.

Fixpoint trim_start (s : string) : string :=
  match s with
  | EmptyString => EmptyString
  | String c s' => if is_space c then trim_start s' else s
  end.

Fixpoint rev_string (s acc : string) : string :=
  match s with
  | EmptyString => acc
  | String c s' => rev_string s' (String c acc)
  end.

Definition ascii_trim (s : string) : string :=
  rev_string (trim_start (rev_string (trim_start s) EmptyString)) EmptyString.

Section Handlers.
(** [trim] is [String.prototype.trim]. *)
Variable trim : string -> string.
Variable remote : Remote.
Variable fresh : Fresh.

Definition taskData_of (f : Form) : TaskData :=
  mkTaskData (trim (f_title f))
             (if String.eqb (trim (f_description f)) ""
              then None else Some (trim (f_description f))).

(** [AddTaskForm.handleSubmit]; the result is the component state left
    behind. *)
Definition handleSubmit (f : Form) : M Form :=
  if String.eqb (trim (f_title f)) "" then ret f
  else
    try_catch
      (s <- getState ;;
       let taskData := taskData_of f in
       (if useTaskStore.isOffline s then
          syncManager.createTaskOffline
            (tempId fresh) (now fresh) (opId fresh) taskData ;;
          ret tt
        else
          try_catch
            (task <- api.tasks_create remote taskData ;;
             dispatch (useTaskStore.addTask task))
            (fun _ =>
               syncManager.createTaskOffline
                 (tempId fresh) (now fresh) (opId fresh) taskData ;;
               ret tt)) ;;
       ret (mkForm "" "" false))
      (fun _ => ret (mkForm (f_title f) (f_description f) false)).

(** The [updates] object of [handleToggleComplete]. *)
Definition toggle_updates (task : Task.t) : PartialTask.t :=
  PartialTask.mk None None None (Some (negb (Task.completed task)))
                 None None None None.

(** [TaskList.handleToggleComplete]. *)
Definition handleToggleComplete (id : string) : M unit :=
  s <- getState ;;
  match find (fun t => String.eqb (Task.id t) id) (useTaskStore.tasks s) with
  | None => ret tt
  | Some task =>
      let updates := toggle_updates task in
      if useTaskStore.isOffline s then
        syncManager.updateTaskOffline (now fresh) (opId fresh) id updates
      else
        try_catch
          (api.tasks_update remote id updates ;;
           dispatch (useTaskStore.updateTask id updates))
          (fun _ =>
             syncManager.updateTaskOffline
               (now fresh) (opId fresh) id updates)
  end.

(** [TaskList.handleDelete]. *)
Definition handleDelete (id : string) : M unit :=
  s <- getState ;;
  if useTaskStore.isOffline s then
    syncManager.deleteTaskOffline (opId fresh) (now fresh) id
  else
    try_catch
      (api.tasks_delete remote id ;;
       dispatch (useTaskStore.deleteTask id))
      (fun _ => syncManager.deleteTaskOffline (opId fresh) (now fresh) id).
End Handlers.

(* ------------------------------------------------------------------ *)
(** ** Vocabulary of the statements *)

(** What [syncQueueDB.getUnsynced] returns in world [w]. *)
Definition unsynced (w : World) : list SyncOperation.t :=
  filter (fun op => negb (SyncOperation.synced op)) (db_getAll (db_syncQueue w)).

(** The version of task [id] as held by the Local Store. *)
Definition observed_version (id : string) (w : World) : option Z :=
  option_map Task.version (db_get Task.id id (db_tasks w)).

(** The update leaves the primary key of the record alone. *)
Definition keeps_id (id : string) (updates : PartialTask.t) : Prop :=
  or_else (PartialTask.id updates) id = id.

(** A run of successive [updateTaskOffline] calls on one task. *)
Definition update_all (id : string) (l : list (Fresh * PartialTask.t))
  : M unit :=
  for_each (fun fu => syncManager.updateTaskOffline
                        (now (fst fu)) (opId (fst fu)) id (snd fu)) l.

(** [a] comes before [b] in the list [l]. *)
Definition precedes {A : Type} (a b : A) (l : list A) : Prop :=
  exists l1 l2 l3, l = (l1 ++ a :: l2 ++ b :: l3)%list.

(** The batch call of a drain is answered, or there is nothing to send. *)
Definition batch_accepted (remote : Remote) (w : World) : Prop :=
  unsynced w = [] \/ exists res, on_sync remote (unsynced w) = inr res.

(** The task of operation [op] is among the conflicts of [res]. *)
Definition in_conflict (res : SyncResult.t) (op : SyncOperation.t) : bool :=
  existsb (fun t => String.eqb (Task.id t) (SyncOperation.taskId op))
          (SyncResult.conflicts res).

(** Reading of "operations of conflicting tasks remain unsynced": after the
    drain they are still in the queue with [synced = false]. *)
Definition conflicts_stay_unsynced (remote : Remote) (w : World) : Prop :=
  forall res op,
    on_sync remote (unsynced w) = inr res ->
    In op (unsynced w) -> in_conflict res op = true ->
    In op (unsynced (run (syncManager.syncWithBackend remote) w)).

(** A mutation the user asks for. *)
Inductive Mutation : Type :=
| CreateTask (f : Form)
| ToggleComplete (id : string)
| DeleteTask (id : string).

Section Requests.
Variable trim : string -> string.
Variable remote : Remote.
Variable fresh : Fresh.

(** The handler the presentation layer runs for a mutation. *)
Definition request (m : Mutation) : M unit :=
  match m with
  | CreateTask f => handleSubmit trim remote fresh f ;; ret tt
  | ToggleComplete id => handleToggleComplete remote fresh id
  | DeleteTask id => handleDelete remote fresh id
  end.


(** The Local Store of [w'] reflects the mutation requested in [w] (task
    inserted, merged or removed) and the queue of [w'] holds the matching
    operation with [synced = false]. *)
Definition applied_and_queued (m : Mutation) (w w' : World) : Prop :=
  match m with
  | CreateTask f =>
      let data := taskData_of trim f in
      let task := Task.mk (tempId fresh) (td_title data) (td_description data)
                          false (now fresh) (now fresh) "temp" 1 in
      db_get Task.id (tempId fresh) (db_tasks w') = Some task /\
      In (SyncOperation.mk (opId fresh) create (tempId fresh)
                           (PartialTask.of_task task) (now fresh) false)
         (unsynced w')
  | ToggleComplete id =>
      exists shown after,
        find (fun t => String.eqb (Task.id t) id)
             (useTaskStore.tasks (taskStore w)) = Some shown /\
        db_get Task.id id (db_tasks w') = Some after /\
        Task.completed after = negb (Task.completed shown) /\
        In (SyncOperation.mk (opId fresh) update id (toggle_updates shown)
                             (now fresh) false)
           (unsynced w')
  | DeleteTask id =>
      db_get Task.id id (db_tasks w') = None /\
      In (SyncOperation.mk (opId fresh) delete id PartialTask.empty
                           (now fresh) false)
         (unsynced w')
  end.

End Requests.

(** The task an update targets is held by the Local Store. *)
Definition held_locally (m : Mutation) (w : World) : Prop :=
  match m with
  | ToggleComplete id => db_get Task.id id (db_tasks w) <> None
  | _ => True
  end.

(** The record a toggle writes: the stored one merged with the toggled
    flag, stamped, with the next version. *)
Definition toggled (now : string) (stored shown : Task.t) : Task.t :=
  with_version (Task.version stored + 1)
    (with_updatedAt now (spread stored (toggle_updates shown))).

(** Readings of the sentences on the online create, on keeping the local
    record of a conflict, and on the initial load. *)
Definition online_create_reaches_local_store
           (trim : string -> string) (remote : Remote) (fresh : Fresh)
           (f : Form) (w : World) : Prop :=
  forall srv,
    useTaskStore.isOffline (taskStore w) = false ->
    trim (f_title f) <> "" ->
    on_create remote (create_body (taskData_of trim f)) = inr srv ->
    let w' := run (handleSubmit trim remote fresh f) w in
    db_get Task.id (Task.id srv) (db_tasks w') = Some srv /\
    db_syncQueue w' = db_syncQueue w.

Definition keep_local_stores_acknowledgment
           (remote : Remote) (taskId : string) (w : World) : Prop :=
  forall localTask ack,
    db_get Task.id taskId (db_tasks w) = Some localTask ->
    on_update remote taskId (update_body (PartialTask.of_task localTask))
    = inr ack ->
    db_get Task.id taskId
           (db_tasks (run (syncManager.resolveConflict remote taskId true) w))
    = Some ack.

Definition load_replaces_wholesale (remote : Remote) (w : World) : Prop :=
  forall l,
    on_list remote = inr l ->
    forall k, In k (db_getAll (db_tasks (run (syncManager.loadTasks remote) w)))
              <-> In k l.

(** The task that the latest [put] of a bulk write leaves under key [k]. *)
Definition last_with_id (k : string) (l : list Task.t) : option Task.t :=
  find (fun t => String.eqb k (Task.id t)) (rev l).

(** Both object stores hold at most one record per key, in key order. *)
Definition wf_world (w : World) : Prop :=
  wf_store Task.id (db_tasks w) /\
  wf_store SyncOperation.id (db_syncQueue w).

Definition preserves_wf {A : Type} (c : M A) : Prop :=
  forall w, wf_world w -> wf_world (snd (c w)).

(* ------------------------------------------------------------------ *)
(** ** Start-up and connectivity events ([lib/sync.ts], [PWAProviders]) *)

(** The two events [setupAutoSync] listens to on [window]. *)
Inductive WindowEvent : Type := online_event | offline_event.

(** [setupAutoSync]: outside a browser ([typeof window === 'undefined'])
    nothing happens; in a browser the two listeners below are registered
    and the offline flag is set from [navigator.onLine]. *)
Definition setupAutoSync (hasWindow onLine : bool) : M unit :=
  if hasWindow then dispatch (useTaskStore.setOffline (negb onLine))
  else ret tt.

(** The listeners [setupAutoSync] registers; [onLine] is [navigator.onLine]
    when the listener runs. *)
Definition listener (remote : Remote) (onLine : bool) (ev : WindowEvent)
  : M unit :=
  match ev with
  | online_event => syncManager.autoSync remote onLine
  | offline_event => dispatch (useTaskStore.setOffline true)
  end.

(** [PWAProviders]: the [init] function of the mount effect, up to the
    registration of the service worker.  The effect runs in a browser. *)
Definition PWAProviders_init (remote : Remote) (onLine : bool) : M unit :=
  syncManager.loadTasks remote ;;
  setupAutoSync true onLine.

(* ------------------------------------------------------------------ *)
(** ** The authentication store ([stores/useAuthStore.ts]) *)

(** The [persist] wrapper saves and restores the three fields as they
    are; the actions are the ones below. *)

Record User : Type := mkUser {
  user_id : string;
  user_email : string;
  user_name : option string
}.

Record AuthTokens : Type := mkAuthTokens {
  accessToken : string;
  refreshToken : option string
}.

Module useAuthStore.
Record State : Type := mk {
  user : option User;
  tokens : option AuthTokens;
  isAuthenticated : bool
}.

Definition initial : State := mk None None false.

(** [!!user]. *)
Definition truthy (u : option User) : bool :=
  match u with Some _ => true | None => false end.

Definition setUser (u : option User) (s : State) : State :=
  mk u (tokens s) (truthy u).

Definition setTokens (t : option AuthTokens) (s : State) : State :=
  mk (user s) t (isAuthenticated s).

Definition login (u : User) (t : AuthTokens) (s : State) : State :=
  mk (Some u) (Some t) true.

Definition logout (s : State) : State := mk None None false.
End useAuthStore.

(** One call of an action of the authentication store. *)
Inductive AuthAction : Type :=
| SetUser (u : option User)
| SetTokens (t : option AuthTokens)
| Login (u : User) (t : AuthTokens)
| Logout.

Definition auth_step (s : useAuthStore.State) (a : AuthAction)
  : useAuthStore.State :=
  match a with
  | SetUser u => useAuthStore.setUser u s
  | SetTokens t => useAuthStore.setTokens t s
  | Login u t => useAuthStore.login u t s
  | Logout => useAuthStore.logout s
  end.

(* ------------------------------------------------------------------ *)
(** ** Vocabulary of the further statements *)

(** The application is in offline mode and the handler has something to
    do: a title that is not blank, a task that is shown. *)
Definition requested_offline (trim : string -> string) (m : Mutation)
           (w : World) : Prop :=
  useTaskStore.isOffline (taskStore w) = true /\
  match m with
  | CreateTask f => trim (f_title f) <> ""
  | ToggleComplete id =>
      exists shown,
        find (fun t => String.eqb (Task.id t) id)
             (useTaskStore.tasks (taskStore w)) = Some shown
  | DeleteTask id => True
  end.

(** The handler takes the online branch and its direct call is answered. *)
Definition direct_call_succeeds (trim : string -> string) (remote : Remote)
           (m : Mutation) (w : World) : Prop :=
  useTaskStore.isOffline (taskStore w) = false /\
  match m with
  | CreateTask f =>
      trim (f_title f) <> "" /\
      exists srv, on_create remote (create_body (taskData_of trim f)) = inr srv
  | ToggleComplete id =>
      exists shown ack,
        find (fun t => String.eqb (Task.id t) id)
             (useTaskStore.tasks (taskStore w)) = Some shown /\
        on_update remote id (update_body (toggle_updates shown)) = inr ack
  | DeleteTask id => exists ack, on_delete remote id = inr ack
  end.

(** The entry the presentation store shows for [id]. *)
Definition shown_task (id : string) (w : World) : option Task.t :=
  find (fun t => String.eqb (Task.id t) id) (useTaskStore.tasks (taskStore w)).

(** A computation that always resolves and writes nothing but the queue. *)
Definition queue_only (c : M unit) : Prop :=
  forall w, exists q, c w = (Ok tt, set_db_syncQueue q w).

(* ------------------------------------------------------------------ *)
(** ** Scenarios *)

Definition network_error : ApiError :=
  mkApiError "Network error - please check your connection"
             (Some "NETWORK_ERROR") None.

(** A remote service that cannot be reached. *)
Definition unreachable : Remote :=
  mkRemote (inl network_error) (fun _ => inl network_error)
           (fun _ => inl network_error) (fun _ _ => inl network_error)
           (fun _ => inl network_error) (fun _ => inl network_error).

Definition with_on_list (l : list Task.t) (r : Remote) : Remote :=
  mkRemote (inr l) (on_get r) (on_create r) (on_update r) (on_delete r)
           (on_sync r).

Definition with_on_sync (res : SyncResult.t) (r : Remote) : Remote :=
  mkRemote (on_list r) (on_get r) (on_create r) (on_update r) (on_delete r)
           (fun _ => inr res).

Definition with_on_create (k : Task.t) (r : Remote) : Remote :=
  mkRemote (on_list r) (on_get r) (fun _ => inr k) (on_update r)
           (on_delete r) (on_sync r).

Definition with_on_update (k : Task.t) (r : Remote) : Remote :=
  mkRemote (on_list r) (on_get r) (on_create r) (fun _ _ => inr k)
           (on_delete r) (on_sync r).

Definition with_on_get (k : Task.t) (r : Remote) : Remote :=
  mkRemote (on_list r) (fun _ => inr k) (on_create r) (on_update r)
           (on_delete r) (on_sync r).

(** Task "t1" as the server lists it at start-up. *)
Definition t1_v1 : Task.t :=
  Task.mk "t1" "Write report" None false
          "2024-01-01T09:00:00.000Z" "2024-01-01T09:00:00.000Z" "u1" 1.

(** The application after a successful initial load of "t1". *)
Definition world_loaded : World :=
  run (syncManager.loadTasks (with_on_list [t1_v1] unreachable)) initial_world.

Definition mark_done : PartialTask.t :=
  PartialTask.mk None None None (Some true) None None None None.

Definition retitle : PartialTask.t :=
  PartialTask.mk None (Some "Write the report") None None None None None None.

(** One update of "t1" queued while offline (local version 2). *)
Definition world_one_update : World :=
  run (syncManager.updateTaskOffline
         "2024-01-02T09:00:00.000Z" "1704186000000-k3x9q1z7a" "t1" mark_done)
      world_loaded.

(** The server's record of "t1", changed elsewhere (version 3). *)
Definition t1_server : Task.t :=
  Task.mk "t1" "Write report (final)" None false
          "2024-01-01T09:00:00.000Z" "2024-01-02T08:00:00.000Z" "u1" 3.

(** The batch endpoint reports "t1" as a conflict and accepts nothing. *)
Definition remote_conflict : Remote :=
  with_on_sync (SyncResult.mk 0 [t1_server]) unreachable.

(** Two updates of "t1" queued within the same millisecond: both operation
    ids start with the same [Date.now()] value, the random suffix of the
    second one sorts before that of the first. *)
Definition first_update : Fresh :=
  mkFresh "" "1704186000000-k3x9q1z7a" "2024-01-02T09:00:00.000Z".

Definition second_update : Fresh :=
  mkFresh "" "1704186000000-a7b2c9d4e" "2024-01-02T09:00:00.000Z".

Definition world_two_updates : World :=
  run (update_all "t1" [(first_update, mark_done); (second_update, retitle)])
      world_loaded.

Definition remote_accepting : Remote :=
  with_on_sync (SyncResult.mk 2 []) unreachable.

(** The two operations queued in [world_two_updates], in enqueue order. *)
Definition first_queued : SyncOperation.t :=
  SyncOperation.mk "1704186000000-k3x9q1z7a" update "t1" mark_done
                   "2024-01-02T09:00:00.000Z" false.

Definition second_queued : SyncOperation.t :=
  SyncOperation.mk "1704186000000-a7b2c9d4e" update "t1" retitle
                   "2024-01-02T09:00:00.000Z" false.

(** Scenario B: the form holds "Call dentist", the server answers the
    create with id "srv-42". *)
Definition srv_42 : Task.t :=
  Task.mk "srv-42" "Call dentist" None false
          "2024-01-03T10:00:00.000Z" "2024-01-03T10:00:00.000Z" "u1" 1.

Definition call_dentist : Form := mkForm "Call dentist" "" false.

Definition fresh_b : Fresh :=
  mkFresh "1704276000000-p0o9i8u7y" "1704276000001-q1w2e3r4t"
          "2024-01-03T10:00:00.000Z".

Definition remote_creating : Remote := with_on_create srv_42 unreachable.

Definition world_created_online : World :=
  run (handleSubmit ascii_trim remote_creating fresh_b call_dentist)
      initial_world.

(** Keeping the local "t1" (version 2) against the server's version 3: the
    server acknowledges the forced update with version 4. *)
Definition t1_ack : Task.t :=
  Task.mk "t1" "Write report" None true
          "2024-01-01T09:00:00.000Z" "2024-01-02T09:05:00.000Z" "u1" 4.

Definition remote_resolving : Remote :=
  with_on_get t1_server (with_on_update t1_ack unreachable).

(** The server has dropped "t1" and lists only "t2". *)
Definition t2_v1 : Task.t :=
  Task.mk "t2" "Book flights" None false
          "2024-01-04T09:00:00.000Z" "2024-01-04T09:00:00.000Z" "u1" 1.

Definition remote_listing_t2 : Remote := with_on_list [t2_v1] unreachable.

(** An update whose payload carries a version and a date of its own. *)
Definition forged_update : PartialTask.t :=
  PartialTask.mk None None None (Some true) None
                 (Some "1999-12-31T23:59:59.000Z") None (Some 99).

(** "Buy milk" created offline on top of the loaded "t1" (Scenario A). *)
Definition buy_milk : Form := mkForm "  Buy milk " "" false.

Definition world_offline : World :=
  run (listener unreachable false offline_event) world_loaded.

Definition world_milk_offline : World :=
  run (handleSubmit ascii_trim unreachable fresh_b buy_milk) world_offline.

(** The server answers a delete and an update. *)
Definition remote_deleting : Remote :=
  mkRemote (inl network_error) (fun _ => inl network_error)
           (fun _ => inl network_error) (fun _ _ => inr t1_ack)
           (fun id => inr (mkDeleteAck "Task moved to trash" id))
           (fun _ => inl network_error).

(** Versions are JavaScript numbers: integers are counted exactly up to
    2^53. *)
Definition max_exact_version : Z := 2 ^ 53.

(** Reading of "each successful local update strictly increases the version
    stored for the task". *)
Definition update_raises_version (now opId id : string)
           (updates : PartialTask.t) (w : World) : Prop :=
  forall v,
    observed_version id w = Some v ->
    result (syncManager.updateTaskOffline now opId id updates) w = Ok tt ->
    exists v',
      observed_version id
        (run (syncManager.updateTaskOffline now opId id updates) w) = Some v' /\
      v < v'.

(** "t1" at version 1 and "t2" at version 10 are cached; an update of "t1"
    whose payload carries the id "t2". *)
Definition t2_v10 : Task.t :=
  Task.mk "t2" "Book flights" None false
          "2024-01-04T09:00:00.000Z" "2024-01-09T09:00:00.000Z" "u1" 10.

Definition world_two_tasks : World :=
  run (syncManager.loadTasks (with_on_list [t1_v1; t2_v10] unreachable))
      initial_world.

Definition rename_to_t2 : PartialTask.t :=
  PartialTask.mk (Some "t2") None None None None None None None.

(* ------------------------------------------------------------------ *)
(** * Properties *)

Unset Implicit Arguments.

(** ** The order on keys *)

Lemma cmp_refl (a : string) : String.compare a a = Eq.
Proof. apply String_as_OT.cmp_eq. reflexivity. Qed.

Lemma cmp_eq_eqb (a b : string) :
  String.compare a b = Eq <-> String.eqb a b = true.
Proof.
  rewrite String.eqb_eq. apply String_as_OT.cmp_eq.
Qed.

Lemma cmp_lt_neqb (a b : string) :
  String.compare a b = Lt -> String.eqb a b = false.
Proof.
  intros H. destruct (String.eqb a b) eqn:E; [|reflexivity].
  apply cmp_eq_eqb in E. congruence.
Qed.

Lemma cmp_gt_neqb (a b : string) :
  String.compare a b = Gt -> String.eqb a b = false.
Proof.
  intros H. destruct (String.eqb a b) eqn:E; [|reflexivity].
  apply cmp_eq_eqb in E. congruence.
Qed.

Lemma cmp_gt_lt (a b : string) :
  String.compare a b = Gt <-> String.compare b a = Lt.
Proof.
  rewrite (String.compare_antisym b a).
  destruct (String.compare a b); simpl; split; congruence.
Qed.

Lemma cmp_lt_trans (a b c : string) :
  String.compare a b = Lt -> String.compare b c = Lt ->
  String.compare a c = Lt.
Proof.
  intros H1 H2.
  apply String_as_OT.cmp_lt in H1. apply String_as_OT.cmp_lt in H2.
  apply String_as_OT.cmp_lt. eapply String_as_OT.lt_trans; eassumption.
Qed.

(** ** The object store *)

Section ObjectStoreFacts.
Variable A : Type.
Variable keyPath : A -> string.

Local Abbreviation put := (db_put keyPath).
Local Abbreviation get := (db_get keyPath).
Local Abbreviation del := (db_delete keyPath).
Local Abbreviation wf := (wf_store keyPath).

Lemma db_get_put (k : string) (v : A) (s : list A) :
  get k (put v s) = if String.eqb k (keyPath v) then Some v else get k s.
Proof.
  induction s as [|x s IH]; simpl.
  - reflexivity.
  - destruct (String.compare (keyPath v) (keyPath x)) eqn:C; simpl.
    + apply String_as_OT.cmp_eq in C. rewrite <- C.
      destruct (String.eqb k (keyPath v)); reflexivity.
    + reflexivity.
    + rewrite IH.
      destruct (String.eqb k (keyPath x)) eqn:E; [|reflexivity].
      apply String.eqb_eq in E. subst k.
      rewrite String.eqb_sym, (cmp_gt_neqb _ _ C). reflexivity.
Qed.

Lemma db_get_put_same (v : A) (s : list A) :
  get (keyPath v) (put v s) = Some v.
Proof. rewrite db_get_put, String.eqb_refl. reflexivity. Qed.

Lemma db_get_delete (k k' : string) (s : list A) :
  get k (del k' s) = if String.eqb k k' then None else get k s.
Proof.
  unfold db_delete. induction s as [|x s IH]; simpl.
  - destruct (String.eqb k k'); reflexivity.
  - destruct (String.eqb k' (keyPath x)) eqn:E; simpl.
    + rewrite IH. apply String.eqb_eq in E. subst k'.
      destruct (String.eqb k (keyPath x)); reflexivity.
    + rewrite IH.
      destruct (String.eqb k (keyPath x)) eqn:E2; [|reflexivity].
      apply String.eqb_eq in E2. subst k.
      rewrite String.eqb_sym, E. reflexivity.
Qed.

Lemma db_put_In (v : A) (s : list A) : In v (put v s).
Proof.
  induction s as [|x s IH]; simpl; [now left|].
  destruct (String.compare (keyPath v) (keyPath x)); simpl; auto.
Qed.

Lemma db_put_In_inv (v x : A) (s : list A) :
  In x (put v s) -> x = v \/ In x s.
Proof.
  induction s as [|y s IH]; simpl.
  - intros [H|[]]; auto.
  - destruct (String.compare (keyPath v) (keyPath y)); simpl;
      intros [H|H]; auto.
    destruct (IH H); auto.
Qed.

(** A record other than the one replaced stays in the store. *)
Lemma db_put_keeps (v x : A) (s : list A) :
  In x s -> keyPath x <> keyPath v -> In x (put v s).
Proof.
  induction s as [|y s IH]; simpl; [tauto|].
  intros Hin Hne.
  destruct (String.compare (keyPath v) (keyPath y)) eqn:C; simpl.
  - apply String_as_OT.cmp_eq in C.
    destruct Hin as [->|Hin]; [congruence | auto].
  - auto.
  - destruct Hin as [->|Hin]; auto.
Qed.

Lemma db_get_Some (k : string) (x : A) (s : list A) :
  get k s = Some x -> keyPath x = k /\ In x s.
Proof.
  induction s as [|y s IH]; simpl; [discriminate|].
  destruct (String.eqb k (keyPath y)) eqn:E.
  - intros [= ->]. apply String.eqb_eq in E. auto.
  - intros H. destruct (IH H). auto.
Qed.

Lemma db_get_None (k : string) (s : list A) :
  get k s = None -> forall x, In x s -> String.eqb k (keyPath x) = false.
Proof.
  induction s as [|y s IH]; simpl; [tauto|].
  destruct (String.eqb k (keyPath y)) eqn:E; [discriminate|].
  intros H x [->|Hin]; auto.
Qed.

Lemma wf_nil : wf [].
Proof. constructor. Qed.

Lemma wf_tail_neq (x : A) (s : list A) :
  wf (x :: s) -> forall y, In y s -> String.eqb (keyPath x) (keyPath y) = false.
Proof.
  intros H y Hy. inversion H as [|? ? _ Hall]; subst.
  rewrite Forall_forall in Hall. apply cmp_lt_neqb. apply Hall, Hy.
Qed.

Lemma wf_get_In (x : A) (s : list A) :
  wf s -> In x s -> get (keyPath x) s = Some x.
Proof.
  induction s as [|y s IH]; simpl; [tauto|].
  intros Hwf [->|Hin].
  - rewrite String.eqb_refl. reflexivity.
  - rewrite String.eqb_sym, (wf_tail_neq _ _ Hwf _ Hin).
    apply IH; [inversion Hwf; assumption | assumption].
Qed.

Lemma wf_put (v : A) (s : list A) : wf s -> wf (put v s).
Proof.
  induction s as [|x s IH]; simpl; intros Hwf.
  - repeat constructor.
  - inversion Hwf as [|? ? Hs Hall]; subst.
    destruct (String.compare (keyPath v) (keyPath x)) eqn:C.
    + apply String_as_OT.cmp_eq in C.
      constructor; [assumption|].
      unfold key_lt in *. rewrite C. assumption.
    + constructor; [assumption|].
      constructor; [assumption|].
      rewrite Forall_forall in *. intros y Hy.
      eapply cmp_lt_trans; [exact C | apply Hall, Hy].
    + constructor; [apply IH; assumption|].
      rewrite Forall_forall in Hall. apply Forall_forall. intros y Hy.
      destruct (db_put_In_inv _ _ _ Hy) as [->|Hy'].
      * apply cmp_gt_lt. exact C.
      * apply Hall, Hy'.
Qed.

Lemma wf_delete (k : string) (s : list A) : wf s -> wf (del k s).
Proof.
  unfold db_delete. induction s as [|x s IH]; simpl; intros Hwf.
  - constructor.
  - inversion Hwf as [|? ? Hs Hall]; subst.
    destruct (negb (String.eqb k (keyPath x))); [|apply IH; assumption].
    constructor; [apply IH; assumption|].
    rewrite Forall_forall in *. intros y Hy.
    apply filter_In in Hy. apply Hall, Hy.
Qed.

(** In a well-formed store, replacing the record found under the key of
    [v] changes that record and no other. *)
Lemma wf_put_replace (v : A) (s : list A) :
  wf s -> get (keyPath v) s <> None ->
  put v s =
  map (fun x => if String.eqb (keyPath x) (keyPath v) then v else x) s.
Proof.
  induction s as [|x s IH]; simpl; intros Hwf Hget; [congruence|].
  inversion Hwf as [|? ? Hs Hall]; subst.
  destruct (String.eqb (keyPath v) (keyPath x)) eqn:E.
  - apply String.eqb_eq in E. rewrite E, cmp_refl, String.eqb_refl.
    f_equal. etransitivity; [symmetry; apply map_id|].
    apply map_ext_in. intros y Hy.
    rewrite String.eqb_sym, (wf_tail_neq _ _ Hwf _ Hy). reflexivity.
  - rewrite String.eqb_sym, E.
    destruct (get (keyPath v) s) as [y|] eqn:G; [|congruence].
    destruct (db_get_Some _ _ _ G) as [Hk Hin].
    rewrite Forall_forall in Hall. specialize (Hall _ Hin).
    unfold key_lt in Hall. rewrite Hk in Hall.
    apply cmp_gt_lt in Hall. rewrite Hall.
    f_equal. apply IH; [assumption | congruence].
Qed.
End ObjectStoreFacts.

Arguments db_get_Some {A keyPath k x s} _.
Arguments db_get_None {A keyPath k s} _ x _.
Arguments wf_get_In {A keyPath x s} _ _.
Arguments wf_put_replace {A keyPath} v {s} _ _.

(** ** Running [async] code *)

Ltac unfold_async :=
  unfold run, result, update_all, unsynced, observed_version,
    syncManager.syncWithBackend, syncManager.loadTasks,
    syncManager.resolveConflict, syncManager.createTaskOffline,
    syncManager.updateTaskOffline, syncManager.deleteTaskOffline,
    api.sync_syncOperations, api.tasks_list, api.tasks_get,
    api.tasks_create, api.tasks_update, api.tasks_delete, fetchApi,
    syncQueueDB.getUnsynced, syncQueueDB.getAll, syncQueueDB.add,
    syncQueueDB.clearSynced, syncQueueDB.delete,
    taskDB.get, taskDB.put, taskDB.delete, taskDB.getAll, taskDB.bulkPut,
    finally, try_catch, bind, ret, throw, dispatch, getState,
    set_db_tasks, set_db_syncQueue, db_getAll in *.

Lemma for_each_app {A : Type} (f : A -> M unit) (l1 l2 : list A) (w : World) :
  for_each f (l1 ++ l2)%list w =
  match for_each f l1 w with
  | (Ok _, w') => for_each f l2 w'
  | (Throw e, w') => (Throw e, w')
  end.
Proof.
  revert w. induction l1 as [|x l1 IH]; intros w; simpl.
  - reflexivity.
  - unfold bind. destruct (f x w) as [[[]|e] w']; [apply IH | reflexivity].
Qed.

(** ** [updateTaskOffline] on a missing task *)

Lemma updateTaskOffline_missing (now opId id : string)
      (updates : PartialTask.t) (w : World) :
  db_get Task.id id (db_tasks w) = None ->
  syncManager.updateTaskOffline now opId id updates w =
  (Throw (JsError "Task not found"), w).
Proof.
  intros H. unfold_async. rewrite H. reflexivity.
Qed.

Lemma updateTaskOffline_present (now opId id : string)
      (updates : PartialTask.t) (w : World) (task : Task.t) :
  db_get Task.id id (db_tasks w) = Some task ->
  let updatedTask := with_version (Task.version task + 1)
                       (with_updatedAt now (spread task updates)) in
  syncManager.updateTaskOffline now opId id updates w =
  (Ok tt,
   mkWorld (db_put Task.id updatedTask (db_tasks w))
           (db_put SyncOperation.id
              (SyncOperation.mk opId update id updates now false)
              (db_syncQueue w))
           (useTaskStore.updateTask id updates (taskStore w))
           (network w)).
Proof.
  intros H. unfold_async. rewrite H. reflexivity.
Qed.

(** C10: [updateTaskOffline(id, updates)] on an id that the Local Store
    does not hold rejects with the error 'Task not found' and leaves the
    world as it was: no task record is written, no operation is queued. *)
Theorem updateTaskOffline_unknown_id_changes_nothing
        (now opId id : string) (updates : PartialTask.t) (w : World) :
  db_get Task.id id (db_tasks w) = None ->
  let call := syncManager.updateTaskOffline now opId id updates in
  result call w = Throw (JsError "Task not found") /\
  run call w = w /\
  db_tasks (run call w) = db_tasks w /\
  db_syncQueue (run call w) = db_syncQueue w.
Proof.
  intros H call. unfold run, result, call.
  rewrite (updateTaskOffline_missing _ _ _ _ _ H). simpl. auto.
Qed.

Lemma updateTaskOffline_unknown_id_witness :
  db_get Task.id "ghost" (db_tasks initial_world) = None /\
  result (syncManager.updateTaskOffline "2024-01-01T00:00:00.000Z"
            "1704067200000-abc" "ghost" PartialTask.empty) initial_world
  = Throw (JsError "Task not found").
Proof.
  split; [reflexivity|].
  apply (updateTaskOffline_unknown_id_changes_nothing
           "2024-01-01T00:00:00.000Z" "1704067200000-abc" "ghost"
           PartialTask.empty initial_world).
  reflexivity.
Defined.

(** ** Versions *)

Lemma createTaskOffline_run (tempId now opId : string) (data : TaskData)
      (w : World) :
  let task := Task.mk tempId (td_title data) (td_description data) false
                      now now "temp" 1 in
  syncManager.createTaskOffline tempId now opId data w =
  (Ok task,
   mkWorld (db_put Task.id task (db_tasks w))
           (db_put SyncOperation.id
              (SyncOperation.mk opId create tempId (PartialTask.of_task task)
                                now false)
              (db_syncQueue w))
           (useTaskStore.addTask task (taskStore w))
           (network w)).
Proof. reflexivity. Qed.

Lemma updateTaskOffline_version (now opId id : string)
      (updates : PartialTask.t) (w : World) (v : Z) :
  observed_version id w = Some v ->
  keeps_id id updates ->
  let call := syncManager.updateTaskOffline now opId id updates in
  result call w = Ok tt /\ observed_version id (run call w) = Some (v + 1).
Proof.
  intros Hv Hk call. unfold observed_version in Hv.
  destruct (db_get Task.id id (db_tasks w)) as [task|] eqn:G; [|discriminate].
  injection Hv as <-.
  destruct (db_get_Some G) as [Hid _].
  unfold call, result, run, observed_version.
  rewrite (updateTaskOffline_present _ _ _ _ _ _ G). simpl.
  split; [reflexivity|].
  rewrite db_get_put. simpl. rewrite Hid.
  unfold keeps_id in Hk. rewrite Hk, String.eqb_refl. reflexivity.
Qed.

(** C9, as the code has it: [createTaskOffline] stores the new task with
    [version = 1]; every successful [updateTaskOffline] whose payload does
    not carry another id stores the previous version of the task plus one,
    so after [n] such updates the stored version has grown by exactly [n],
    each update making it strictly greater than before, as long as the
    version stays within the integers a JavaScript number counts exactly
    (up to 2^53). *)
Theorem local_mutations_increase_version
        (w : World) (fr : Fresh) (data : TaskData)
        (id : string) (v : Z) (l : list (Fresh * PartialTask.t)) :
  observed_version id w = Some v ->
  Forall (fun fu => keeps_id id (snd fu)) l ->
  v + Z.of_nat (List.length l) <= max_exact_version ->
  observed_version (tempId fr)
    (run (syncManager.createTaskOffline
            (tempId fr) (now fr) (opId fr) data) w) = Some 1 /\
  result (update_all id l) w = Ok tt /\
  observed_version id (run (update_all id l) w)
  = Some (v + Z.of_nat (List.length l)) /\
  (forall l1 x, l = (l1 ++ [x])%list ->
     exists v1, observed_version id (run (update_all id l1) w) = Some v1 /\
                observed_version id (run (update_all id l) w) = Some (v1 + 1) /\
                v1 < v1 + 1).
Proof.
  intros Hv Hl _.
  assert (Hsteps : forall l w v,
             observed_version id w = Some v ->
             Forall (fun fu => keeps_id id (snd fu)) l ->
             result (update_all id l) w = Ok tt /\
             observed_version id (run (update_all id l) w)
             = Some (v + Z.of_nat (List.length l))).
  { clear. intros l. induction l as [|[f u] l IH]; intros w v Hv Hl.
    - simpl. rewrite Z.add_0_r. auto.
    - inversion Hl as [|? ? Hk Hl']; subst. simpl in Hk.
      destruct (updateTaskOffline_version (now f) (opId f) id u w v Hv Hk)
        as [Hr Hv'].
      unfold update_all, result, run in *. simpl for_each. unfold bind.
      simpl fst. simpl snd.
      destruct (syncManager.updateTaskOffline (now f) (opId f) id u w)
        as [[[]|e] w'] eqn:E; simpl in Hr, Hv'; [|discriminate].
      destruct (IH w' (v + 1) Hv' Hl') as [Hr2 Hv2].
      split; [exact Hr2|]. rewrite Hv2. f_equal.
      change (List.length ((f, u) :: l)) with (S (List.length l)). lia. }
  split; [|split; [|split]].
  - unfold observed_version, run. rewrite createTaskOffline_run. simpl.
    rewrite db_get_put. simpl. rewrite String.eqb_refl. reflexivity.
  - apply (Hsteps l w v Hv Hl).
  - apply (Hsteps l w v Hv Hl).
  - intros l1 x ->.
    apply Forall_app in Hl. destruct Hl as [Hl1 Hx].
    destruct (Hsteps l1 w v Hv Hl1) as [Hr1 Hv1].
    exists (v + Z.of_nat (List.length l1)). split; [exact Hv1|].
    split; [|lia].
    unfold update_all, run, result in *. rewrite for_each_app.
    destruct (for_each _ l1 w) as [[[]|e] w1]; simpl in Hr1, Hv1;
      [|discriminate].
    destruct (Hsteps [x] w1 _ Hv1 Hx) as [_ Hv2].
    unfold update_all, run in Hv2. rewrite Hv2. reflexivity.
Qed.

(** The update a toggle issues leaves the id alone. *)
Lemma toggle_updates_keeps_id (id : string) (shown : Task.t) :
  keeps_id id (toggle_updates shown).
Proof. reflexivity. Qed.

Lemma local_mutations_increase_version_witness :
  observed_version "t1" world_loaded = Some 1 /\
  observed_version "t1" world_two_updates = Some 3.
Proof.
  pose proof (local_mutations_increase_version world_loaded fresh_b
                (mkTaskData "Buy milk" None) "t1" 1
                [(first_update, mark_done); (second_update, retitle)]) as H.
  destruct H as [_ [_ [H3 _]]].
  - reflexivity.
  - repeat constructor.
  - vm_compute. discriminate.
  - split; [reflexivity | exact H3].
Defined.

(** C9, counterexample: "t1" (version 1) and "t2" (version 10) are cached;
    [updateTaskOffline("t1", {id: "t2"})] resolves, and the version stored
    for "t1" is still 1. *)
Lemma renaming_update_keeps_old_version :
  ~ update_raises_version "2024-01-10T09:00:00.000Z" "1704877200000-z9y8x7w6v"
      "t1" rename_to_t2 world_two_tasks.
Proof.
  intros H. destruct (H 1 eq_refl eq_refl) as [v' [Hv' Hlt]].
  vm_compute in Hv'. injection Hv' as <-. discriminate Hlt.
Qed.

(** What happens there: the merged record is written under "t2", whose
    stored version falls from 10 to 2. *)
Lemma renaming_update_run :
  let call := syncManager.updateTaskOffline
                "2024-01-10T09:00:00.000Z" "1704877200000-z9y8x7w6v"
                "t1" rename_to_t2 in
  result call world_two_tasks = Ok tt /\
  observed_version "t1" (run call world_two_tasks) = Some 1 /\
  observed_version "t2" world_two_tasks = Some 10 /\
  observed_version "t2" (run call world_two_tasks) = Some 2.
Proof. vm_compute. auto. Qed.

(** Whatever the update carries, the record it writes has the previous
    version plus one, under the id the merged record ends up with. *)
Lemma updateTaskOffline_writes_next_version (now opId id : string)
      (updates : PartialTask.t) (w : World) (task : Task.t) :
  db_get Task.id id (db_tasks w) = Some task ->
  let w' := run (syncManager.updateTaskOffline now opId id updates) w in
  exists written,
    db_get Task.id (or_else (PartialTask.id updates) id) (db_tasks w')
    = Some written /\
    Task.version written = Task.version task + 1.
Proof.
  intros G w'. unfold w', run.
  rewrite (updateTaskOffline_present _ _ _ _ _ _ G). cbn [snd db_tasks].
  destruct (db_get_Some G) as [Hid _].
  exists (with_version (Task.version task + 1)
            (with_updatedAt now (spread task updates))).
  split; [|reflexivity].
  rewrite db_get_put. cbn [with_version with_updatedAt spread Task.id].
  rewrite Hid, String.eqb_refl. reflexivity.
Qed.

(** ** Draining the queue *)

Lemma set_synced_id (op : SyncOperation.t) :
  SyncOperation.id (SyncOperation.set_synced op) = SyncOperation.id op.
Proof. reflexivity. Qed.

Lemma set_synced_fixed (op : SyncOperation.t) :
  SyncOperation.synced op = true -> SyncOperation.set_synced op = op.
Proof. destruct op; simpl; intros ->; reflexivity. Qed.

Lemma wf_map_same_keys {A : Type} (keyPath : A -> string) (f : A -> A)
      (s : list A) :
  (forall x, keyPath (f x) = keyPath x) ->
  wf_store keyPath s -> wf_store keyPath (map f s).
Proof.
  intros Hf. induction s as [|x s IH]; simpl; intros Hwf.
  - constructor.
  - inversion Hwf as [|? ? Hs Hall]; subst.
    constructor; [apply IH; assumption|].
    rewrite Forall_forall in *. intros y Hy.
    apply in_map_iff in Hy. destruct Hy as [z [<- Hz]].
    unfold key_lt. rewrite !Hf. apply Hall, Hz.
Qed.

(** On a well-formed queue [markSynced id] flags the operation stored
    under [id] and touches nothing else. *)
Lemma markSynced_run (id : string) (w : World) :
  wf_store SyncOperation.id (db_syncQueue w) ->
  syncQueueDB.markSynced id w =
  (Ok tt,
   set_db_syncQueue
     (map (fun x => if String.eqb (SyncOperation.id x) id
                    then SyncOperation.set_synced x else x)
          (db_syncQueue w)) w).
Proof.
  intros Hwf. unfold syncQueueDB.markSynced.
  destruct (db_get SyncOperation.id id (db_syncQueue w)) as [op|] eqn:G.
  - destruct (db_get_Some G) as [Hid Hin].
    rewrite (wf_put_replace (SyncOperation.set_synced op) Hwf)
      by (rewrite set_synced_id, Hid, G; discriminate).
    do 2 f_equal. apply map_ext_in. intros x Hx.
    rewrite set_synced_id, Hid.
    destruct (String.eqb (SyncOperation.id x) id) eqn:E; [|reflexivity].
    apply String.eqb_eq in E.
    pose proof (wf_get_In Hwf Hx) as Gx. rewrite E, G in Gx.
    injection Gx as ->. reflexivity.
  - f_equal. destruct w as [t q u n]; simpl in *. unfold set_db_syncQueue.
    simpl. f_equal. etransitivity; [symmetry; apply map_id|].
    apply map_ext_in. intros x Hx.
    rewrite String.eqb_sym, (db_get_None G x Hx). reflexivity.
Qed.

Lemma mark_each_run (ops : list SyncOperation.t) (w : World) :
  wf_store SyncOperation.id (db_syncQueue w) ->
  for_each (fun op => syncQueueDB.markSynced (SyncOperation.id op)) ops w =
  (Ok tt,
   set_db_syncQueue
     (map (fun x =>
             if existsb (fun op => String.eqb (SyncOperation.id x)
                                              (SyncOperation.id op)) ops
             then SyncOperation.set_synced x else x)
          (db_syncQueue w)) w).
Proof.
  revert w. induction ops as [|o ops IH]; intros w Hwf; simpl.
  - unfold ret. f_equal. destruct w; unfold set_db_syncQueue; simpl.
    f_equal. symmetry. apply map_id.
  - unfold bind. rewrite (markSynced_run _ _ Hwf).
    rewrite IH
      by (simpl; apply wf_map_same_keys;
          [intros x; destruct (String.eqb _ _); reflexivity | exact Hwf]).
    unfold set_db_syncQueue. simpl. do 2 f_equal.
    rewrite map_map. apply map_ext. intros x.
    destruct (String.eqb (SyncOperation.id x) (SyncOperation.id o)) eqn:E;
      simpl.
    + destruct (existsb _ ops); reflexivity.
    + reflexivity.
Qed.

Lemma delete_each_all {A : Type} (keyPath : A -> string) (l q : list A) :
  (forall x, In x q -> In (keyPath x) (map keyPath l)) ->
  fold_left (fun q op => db_delete keyPath (keyPath op) q) l q = [].
Proof.
  revert q. induction l as [|a l IH]; intros q H; simpl.
  - destruct q as [|x q]; [reflexivity|]. destruct (H x (or_introl eq_refl)).
  - apply IH. intros x Hx. unfold db_delete in Hx.
    apply filter_In in Hx. destruct Hx as [Hx Hne].
    destruct (H x Hx) as [Heq|Hin]; [|exact Hin].
    rewrite Heq, String.eqb_refl in Hne. discriminate.
Qed.

Lemma for_each_delete_run (l : list SyncOperation.t) (w : World) :
  for_each (fun op => syncQueueDB.delete (SyncOperation.id op)) l w =
  (Ok tt,
   set_db_syncQueue
     (fold_left (fun q op => db_delete SyncOperation.id (SyncOperation.id op) q)
                l (db_syncQueue w)) w).
Proof.
  revert w. induction l as [|a l IH]; intros w; simpl.
  - destruct w; reflexivity.
  - unfold bind, syncQueueDB.delete at 1. rewrite IH.
    destruct w; reflexivity.
Qed.

(** Flagging every unsynced operation and then purging the flagged ones
    empties a well-formed queue. *)
Lemma mark_then_clear (w : World) :
  wf_store SyncOperation.id (db_syncQueue w) ->
  (for_each (fun op => syncQueueDB.markSynced (SyncOperation.id op))
            (unsynced w) ;;
   syncQueueDB.clearSynced)%async w
  = (Ok tt, set_db_syncQueue [] w).
Proof.
  intros Hwf. unfold bind at 1. rewrite (mark_each_run _ _ Hwf).
  unfold syncQueueDB.clearSynced, syncQueueDB.getAll, bind, ret, db_getAll.
  rewrite for_each_delete_run. simpl.
  rewrite delete_each_all; [destruct w; reflexivity|].
  intros x Hx. apply in_map. apply filter_In. split; [exact Hx|].
  apply in_map_iff in Hx. destruct Hx as [y [<- Hy]].
  destruct (existsb _ (unsynced w)) eqn:E; [reflexivity|].
  destruct (SyncOperation.synced y) eqn:S; [reflexivity|].
  exfalso.
  assert (Hin : In y (unsynced w)).
  { unfold unsynced, db_getAll. apply filter_In. rewrite S. auto. }
  assert (H : existsb (fun op => String.eqb (SyncOperation.id y)
                                            (SyncOperation.id op))
                      (unsynced w) = true).
  { apply existsb_exists. exists y. rewrite String.eqb_refl. auto. }
  congruence.
Qed.

Lemma length_zero_nil {A : Type} (l : list A) :
  Nat.eqb (List.length l) 0 = true <-> l = [].
Proof. destruct l; simpl; split; congruence. Qed.

Lemma length_nonzero {A : Type} (l : list A) :
  l <> [] -> Nat.eqb (List.length l) 0 = false.
Proof. destruct l; simpl; congruence. Qed.

Lemma list_eq_dec_nil {A : Type} (l : list A) : {l = []} + {l <> []}.
Proof. destruct l; [left; reflexivity | right; discriminate]. Qed.

(** Nothing to send: no request, the queue is not touched. *)
Lemma syncWithBackend_idle (remote : Remote) (w : World) :
  unsynced w = [] ->
  syncManager.syncWithBackend remote w =
  (Ok (SyncResult.mk 0 []),
   mkWorld (db_tasks w) (db_syncQueue w)
           (useTaskStore.setSyncStatus success
              (useTaskStore.setSyncStatus syncing (taskStore w)))
           (network w)).
Proof.
  intros H. unfold unsynced in H. unfold_async. simpl. rewrite H. reflexivity.
Qed.

(** The batch call is rejected: the error is caught, the queue is left
    alone. *)
Lemma syncWithBackend_rejected (remote : Remote) (w : World) (e : ApiError) :
  unsynced w <> [] ->
  on_sync remote (unsynced w) = inl e ->
  syncManager.syncWithBackend remote w =
  (Ok (SyncResult.mk 0 []),
   mkWorld (db_tasks w) (db_syncQueue w)
           (useTaskStore.setOffline true
              (useTaskStore.setSyncStatus error_status
                 (useTaskStore.setSyncStatus syncing (taskStore w))))
           (network w ++ [POST_sync (unsynced w)])).
Proof.
  intros Hne He. unfold unsynced in *. unfold_async. simpl.
  rewrite (length_nonzero _ Hne), He. reflexivity.
Qed.

(** The batch call is answered: every operation sent is flagged and purged,
    the answer is handed to the caller as it came. *)
Lemma syncWithBackend_answered (remote : Remote) (w : World)
      (res : SyncResult.t) :
  wf_store SyncOperation.id (db_syncQueue w) ->
  unsynced w <> [] ->
  on_sync remote (unsynced w) = inr res ->
  syncManager.syncWithBackend remote w =
  (Ok res,
   mkWorld (db_tasks w) []
           (useTaskStore.setOffline false
              (useTaskStore.setSyncStatus success
                 (useTaskStore.setSyncStatus syncing (taskStore w))))
           (network w ++ [POST_sync (unsynced w)])).
Proof.
  intros Hwf Hne He.
  unfold syncManager.syncWithBackend, try_catch.
  unfold bind at 1. unfold dispatch at 1.
  unfold bind at 1. unfold syncQueueDB.getUnsynced at 1.
  unfold bind at 1. unfold syncQueueDB.getAll at 1. unfold ret at 1.
  cbn [db_syncQueue].
  change (filter (fun op => negb (SyncOperation.synced op))
                 (db_getAll (db_syncQueue w))) with (unsynced w).
  rewrite (length_nonzero _ Hne).
  unfold bind at 1. unfold api.sync_syncOperations, fetchApi.
  rewrite He. cbn [db_tasks db_syncQueue taskStore network].
  set (w1 := mkWorld (db_tasks w) (db_syncQueue w)
                     (useTaskStore.setSyncStatus syncing (taskStore w))
                     (network w ++ [POST_sync (unsynced w)])).
  assert (Hu : unsynced w1 = unsynced w) by reflexivity.
  assert (Hwf1 : wf_store SyncOperation.id (db_syncQueue w1)) by exact Hwf.
  pose proof (mark_then_clear w1 Hwf1) as Hmc. rewrite Hu in Hmc.
  unfold bind in Hmc. unfold bind.
  destruct (for_each _ (unsynced w) w1) as [[[]|e] w2].
  - rewrite Hmc. reflexivity.
  - discriminate.
Qed.

Lemma for_each_network {A : Type} (f : A -> M unit) (l : list A) :
  (forall x w, network (snd (f x w)) = network w) ->
  forall w, network (snd (for_each f l w)) = network w.
Proof.
  intros Hf. induction l as [|x l IH]; intros w; simpl.
  - reflexivity.
  - unfold bind. specialize (Hf x w).
    destruct (f x w) as [[[]|e] w1]; simpl in *.
    + rewrite IH. exact Hf.
    + exact Hf.
Qed.

Lemma markSynced_network (id : string) (w : World) :
  network (snd (syncQueueDB.markSynced id w)) = network w.
Proof.
  unfold syncQueueDB.markSynced.
  destruct (db_get SyncOperation.id id (db_syncQueue w)); reflexivity.
Qed.

Lemma clearSynced_network (w : World) :
  network (snd (syncQueueDB.clearSynced w)) = network w.
Proof.
  unfold syncQueueDB.clearSynced, syncQueueDB.getAll, bind.
  rewrite for_each_delete_run. reflexivity.
Qed.

(** A drain sends one batch request carrying the unsynced operations in the
    order [getUnsynced] returns them, or no request when there are none. *)
Lemma drain_request (remote : Remote) (w : World) :
  network (run (syncManager.syncWithBackend remote) w) =
  (network w ++ match unsynced w with
                | [] => []
                | _ :: _ => [POST_sync (unsynced w)]
                end)%list.
Proof.
  destruct (unsynced w) as [|o ops] eqn:U.
  - unfold run. rewrite (syncWithBackend_idle remote w U). simpl.
    rewrite app_nil_r. reflexivity.
  - assert (Hne : unsynced w <> []) by (rewrite U; discriminate).
    rewrite <- U.
    destruct (on_sync remote (unsynced w)) as [e|res] eqn:E.
    + unfold run. rewrite (syncWithBackend_rejected remote w e Hne E).
      reflexivity.
    + unfold run, syncManager.syncWithBackend, try_catch.
      unfold bind at 1. unfold dispatch at 1.
      unfold bind at 1. unfold syncQueueDB.getUnsynced at 1.
      unfold bind at 1. unfold syncQueueDB.getAll at 1. unfold ret at 1.
      cbn [db_syncQueue].
      change (filter (fun op => negb (SyncOperation.synced op))
                     (db_getAll (db_syncQueue w))) with (unsynced w).
      rewrite (length_nonzero _ Hne).
      unfold bind at 1. unfold api.sync_syncOperations, fetchApi.
      rewrite E. cbn [db_tasks db_syncQueue taskStore network].
      set (w1 := mkWorld _ _ _ (network w ++ [POST_sync (unsynced w)])).
      unfold bind at 1.
      pose proof (for_each_network
                    (fun op => syncQueueDB.markSynced (SyncOperation.id op))
                    (unsynced w)
                    (fun x w => markSynced_network (SyncOperation.id x) w) w1)
        as Hm.
      destruct (for_each _ (unsynced w) w1) as [[[]|e] w2]; simpl in Hm.
      * unfold bind at 1. pose proof (clearSynced_network w2) as Hc.
        destruct (syncQueueDB.clearSynced w2) as [[[]|e] w3]; simpl in Hc;
          simpl; congruence.
      * simpl. exact Hm.
Qed.

(** C8: when the batch call of a drain fails, [syncWithBackend] does not
    reject: it resolves with [synced = 0] and no conflicts; the queue and
    the tasks are exactly as before, so every queued operation still has
    [synced = false]; and the next drain sends the same operations again. *)
Theorem failed_drain_keeps_queue (remote next : Remote) (w : World)
        (e : ApiError) :
  unsynced w <> [] ->
  on_sync remote (unsynced w) = inl e ->
  let w' := run (syncManager.syncWithBackend remote) w in
  result (syncManager.syncWithBackend remote) w = Ok (SyncResult.mk 0 []) /\
  db_syncQueue w' = db_syncQueue w /\
  db_tasks w' = db_tasks w /\
  unsynced w' = unsynced w /\
  network w' = (network w ++ [POST_sync (unsynced w)])%list /\
  network (run (syncManager.syncWithBackend next) w')
  = (network w' ++ [POST_sync (unsynced w)])%list.
Proof.
  intros Hne He w'.
  assert (Hw' : w' = mkWorld (db_tasks w) (db_syncQueue w)
           (useTaskStore.setOffline true
              (useTaskStore.setSyncStatus error_status
                 (useTaskStore.setSyncStatus syncing (taskStore w))))
           (network w ++ [POST_sync (unsynced w)])).
  { unfold w', run. rewrite (syncWithBackend_rejected remote w e Hne He).
    reflexivity. }
  assert (Hu : unsynced w' = unsynced w) by (rewrite Hw'; reflexivity).
  repeat split.
  - unfold result. rewrite (syncWithBackend_rejected remote w e Hne He).
    reflexivity.
  - rewrite Hw'. reflexivity.
  - rewrite Hw'. reflexivity.
  - exact Hu.
  - rewrite Hw'. reflexivity.
  - rewrite drain_request, Hu.
    destruct (unsynced w); [congruence | reflexivity].
Qed.

Lemma failed_drain_keeps_queue_witness :
  result (syncManager.syncWithBackend unreachable) world_one_update
  = Ok (SyncResult.mk 0 []) /\
  unsynced (run (syncManager.syncWithBackend unreachable) world_one_update)
  = unsynced world_one_update.
Proof.
  pose proof (failed_drain_keeps_queue unreachable remote_accepting
                world_one_update network_error) as H.
  simpl in H.
  destruct H as [H1 [_ [_ [H4 _]]]];
    [discriminate | reflexivity | split; assumption].
Defined.

(** C6: after a drain whose batch call was answered (or that had nothing to
    send), a second drain with no mutation in between finds no unsynced
    operation, sends no request and resolves with [synced = 0]; it leaves
    the queue and the tasks as the first drain left them. *)
Theorem second_drain_is_noop (first second : Remote) (w : World) :
  wf_store SyncOperation.id (db_syncQueue w) ->
  batch_accepted first w ->
  let w1 := run (syncManager.syncWithBackend first) w in
  let w2 := run (syncManager.syncWithBackend second) w1 in
  unsynced w1 = [] /\
  result (syncManager.syncWithBackend second) w1 = Ok (SyncResult.mk 0 []) /\
  network w2 = network w1 /\
  db_syncQueue w2 = db_syncQueue w1 /\
  db_tasks w2 = db_tasks w1.
Proof.
  intros Hwf Hacc w1 w2.
  assert (Hu1 : unsynced w1 = []).
  { unfold w1, run. destruct Hacc as [Hnil | [res Hres]].
    - rewrite (syncWithBackend_idle first w Hnil). exact Hnil.
    - destruct (list_eq_dec_nil (unsynced w)) as [U|U].
      + rewrite (syncWithBackend_idle first w U). exact U.
      + rewrite (syncWithBackend_answered first w res Hwf U Hres).
        reflexivity. }
  unfold w2, run, result.
  rewrite (syncWithBackend_idle second w1 Hu1). simpl. auto.
Qed.

Lemma second_drain_is_noop_witness :
  result (syncManager.syncWithBackend unreachable)
         (run (syncManager.syncWithBackend remote_accepting) world_one_update)
  = Ok (SyncResult.mk 0 []) /\
  network (run (syncManager.syncWithBackend unreachable)
             (run (syncManager.syncWithBackend remote_accepting)
                  world_one_update))
  = network (run (syncManager.syncWithBackend remote_accepting)
                 world_one_update).
Proof.
  pose proof (second_drain_is_noop remote_accepting unreachable
                world_one_update) as H.
  simpl in H.
  destruct H as [_ [H2 [H3 _]]].
  - vm_compute. repeat constructor.
  - right. eexists. reflexivity.
  - split; assumption.
Defined.

(** C2, as the code has it: when the batch call of a drain is answered,
    every operation that was sent, those of conflicting tasks included, is
    flagged synced and purged, so the queue is left empty; the caller gets
    the server's answer as it came, with its count and its list of
    conflicting tasks; the tasks of the Local Store and of the presentation
    store are not touched. *)
Theorem answered_drain_purges_all_sent (remote : Remote) (w : World)
        (res : SyncResult.t) :
  wf_store SyncOperation.id (db_syncQueue w) ->
  unsynced w <> [] ->
  on_sync remote (unsynced w) = inr res ->
  let w' := run (syncManager.syncWithBackend remote) w in
  result (syncManager.syncWithBackend remote) w = Ok res /\
  db_syncQueue w' = [] /\
  db_tasks w' = db_tasks w /\
  useTaskStore.tasks (taskStore w') = useTaskStore.tasks (taskStore w) /\
  network w' = (network w ++ [POST_sync (unsynced w)])%list.
Proof.
  intros Hwf Hne Hres w'. unfold w', run, result.
  rewrite (syncWithBackend_answered remote w res Hwf Hne Hres). simpl. auto.
Qed.

Lemma answered_drain_purges_all_sent_witness :
  result (syncManager.syncWithBackend remote_conflict) world_one_update
  = Ok (SyncResult.mk 0 [t1_server]) /\
  db_syncQueue (run (syncManager.syncWithBackend remote_conflict)
                    world_one_update) = [].
Proof.
  pose proof (answered_drain_purges_all_sent remote_conflict world_one_update
                (SyncResult.mk 0 [t1_server])) as H.
  simpl in H.
  destruct H as [H1 [H2 _]].
  - vm_compute. repeat constructor.
  - discriminate.
  - reflexivity.
  - split; assumption.
Defined.

(** C2, counterexample: one update of "t1" is queued and the batch answer
    lists "t1" as a conflict; after the drain the operation is not in the
    queue any more, so it did not remain unsynced. *)
Lemma conflict_operation_is_purged :
  ~ conflicts_stay_unsynced remote_conflict world_one_update.
Proof.
  intros H.
  specialize (H (SyncResult.mk 0 [t1_server]) first_queued).
  vm_compute in H. apply H; auto.
Qed.

(** C5, at the failing input: two updates of "t1" are queued one after the
    other within one millisecond; the drain submits the later one first. *)
Theorem drain_submits_later_update_first :
  db_syncQueue (run (syncManager.updateTaskOffline
                       (now first_update) (opId first_update) "t1" mark_done)
                    world_loaded) = [first_queued] /\
  unsynced world_two_updates = [second_queued; first_queued] /\
  network (run (syncManager.syncWithBackend remote_accepting)
               world_two_updates)
  = [GET_tasks; POST_sync [second_queued; first_queued]].
Proof. vm_compute. auto. Qed.

(** What a drain does guarantee: the batch is in ascending order of the
    operation ids. *)
Lemma unsynced_in_key_order (w : World) :
  wf_store SyncOperation.id (db_syncQueue w) ->
  StronglySorted (key_lt SyncOperation.id) (unsynced w).
Proof.
  unfold unsynced, db_getAll, wf_store.
  induction (db_syncQueue w) as [|x q IH]; simpl; intros H.
  - constructor.
  - inversion H as [|? ? Hq Hall]; subst.
    destruct (negb (SyncOperation.synced x)); [|apply IH; assumption].
    constructor; [apply IH; assumption|].
    rewrite Forall_forall in *. intros y Hy.
    apply filter_In in Hy. apply Hall, Hy.
Qed.

(** ** Initial load *)

Lemma bulkPut_run (l : list Task.t) (w : World) :
  taskDB.bulkPut l w =
  (Ok tt,
   set_db_tasks (fold_left (fun s t => db_put Task.id t s) l (db_tasks w)) w).
Proof.
  unfold taskDB.bulkPut. revert w.
  induction l as [|x l IH]; intros w; simpl.
  - destruct w; reflexivity.
  - unfold bind, taskDB.put at 1. rewrite IH. destruct w; reflexivity.
Qed.

Lemma db_get_bulk (k : string) (l : list Task.t) (s : list Task.t) :
  db_get Task.id k (fold_left (fun s t => db_put Task.id t s) l s) =
  match last_with_id k l with
  | Some t => Some t
  | None => db_get Task.id k s
  end.
Proof.
  unfold last_with_id.
  induction l as [|x l IH] using rev_ind; simpl.
  - reflexivity.
  - rewrite fold_left_app, rev_app_distr. simpl.
    rewrite db_get_put.
    destruct (String.eqb k (Task.id x)); [reflexivity | exact IH].
Qed.

Lemma loadTasks_listed (remote : Remote) (w : World) (l : list Task.t) :
  on_list remote = inr l ->
  syncManager.loadTasks remote w =
  (Ok tt,
   mkWorld (fold_left (fun s t => db_put Task.id t s) l (db_tasks w))
           (db_syncQueue w)
           (useTaskStore.setLoading false
              (useTaskStore.setOffline false
                 (useTaskStore.setTasks l
                    (useTaskStore.setLoading true (taskStore w)))))
           (network w ++ [GET_tasks])).
Proof.
  intros E.
  unfold syncManager.loadTasks, finally, try_catch, bind,
    api.tasks_list, fetchApi, dispatch.
  rewrite E. simpl. rewrite bulkPut_run. reflexivity.
Qed.

Lemma loadTasks_unreachable (remote : Remote) (w : World) (e : ApiError) :
  on_list remote = inl e ->
  syncManager.loadTasks remote w =
  (Ok tt,
   mkWorld (db_tasks w) (db_syncQueue w)
           (useTaskStore.setLoading false
              (useTaskStore.setOffline true
                 (useTaskStore.setTasks (db_getAll (db_tasks w))
                    (useTaskStore.setLoading true (taskStore w)))))
           (network w ++ [GET_tasks])).
Proof.
  intros E.
  unfold syncManager.loadTasks, finally, try_catch, bind,
    api.tasks_list, fetchApi, dispatch, taskDB.getAll.
  rewrite E. reflexivity.
Qed.

(** C7, as the code has it: [loadTasks] asks the remote service for the
    list and never rejects.  On success the presentation store shows
    exactly the returned list and is marked online, and every returned task
    is written to the Local Store over the record with the same id, the
    other cached records staying where they are.  On failure the cached
    tasks are shown, the state is marked offline, the error field is not
    set and the Local Store is not written. *)
Theorem loadTasks_outcome (remote : Remote) (w : World) :
  let w' := run (syncManager.loadTasks remote) w in
  result (syncManager.loadTasks remote) w = Ok tt /\
  network w' = (network w ++ [GET_tasks])%list /\
  db_syncQueue w' = db_syncQueue w /\
  useTaskStore.error (taskStore w') = useTaskStore.error (taskStore w) /\
  useTaskStore.loading (taskStore w') = false /\
  match on_list remote with
  | inr l =>
      useTaskStore.tasks (taskStore w') = l /\
      useTaskStore.isOffline (taskStore w') = false /\
      forall k, db_get Task.id k (db_tasks w') =
                match last_with_id k l with
                | Some t => Some t
                | None => db_get Task.id k (db_tasks w)
                end
  | inl _ =>
      useTaskStore.tasks (taskStore w') = db_getAll (db_tasks w) /\
      useTaskStore.isOffline (taskStore w') = true /\
      db_tasks w' = db_tasks w
  end.
Proof.
  intros w'. unfold w'. clear w'. unfold run, result.
  destruct (on_list remote) as [e|l] eqn:E.
  - rewrite (loadTasks_unreachable remote w e E). simpl.
    repeat (split; [reflexivity|]). reflexivity.
  - rewrite (loadTasks_listed remote w l E). simpl.
    repeat (split; [reflexivity|]). intros k. apply db_get_bulk.
Qed.

(** C7, counterexample: "t1" is cached and the server now lists only "t2";
    after the load the Local Store still holds "t1", which is not in the
    returned list. *)
Lemma load_keeps_stale_record :
  ~ load_replaces_wholesale remote_listing_t2 world_loaded.
Proof.
  intros H. specialize (H [t2_v1] eq_refl t1_v1).
  destruct H as [H _].
  assert (Hin : In t1_v1 [t2_v1]) by (apply H; vm_compute; auto).
  destruct Hin as [Heq|[]]. discriminate Heq.
Qed.

(** ** Creating a task from the form *)

Lemma handleSubmit_online_ok (trim : string -> string) (remote : Remote)
      (fresh : Fresh) (f : Form) (w : World) (srv : Task.t) :
  useTaskStore.isOffline (taskStore w) = false ->
  trim (f_title f) <> "" ->
  on_create remote (create_body (taskData_of trim f)) = inr srv ->
  handleSubmit trim remote fresh f w =
  (Ok (mkForm "" "" false),
   mkWorld (db_tasks w) (db_syncQueue w)
           (useTaskStore.addTask srv (taskStore w))
           (network w ++ [POST_tasks (create_body (taskData_of trim f))])).
Proof.
  intros Hon Ht Hc. apply String.eqb_neq in Ht.
  unfold handleSubmit. rewrite Ht.
  unfold try_catch, bind, getState, api.tasks_create, fetchApi, dispatch, ret.
  rewrite Hon, Hc. reflexivity.
Qed.

Lemma handleSubmit_online_rejected (trim : string -> string) (remote : Remote)
      (fresh : Fresh) (f : Form) (w : World) (e : ApiError) :
  useTaskStore.isOffline (taskStore w) = false ->
  trim (f_title f) <> "" ->
  on_create remote (create_body (taskData_of trim f)) = inl e ->
  let data := taskData_of trim f in
  let task := Task.mk (tempId fresh) (td_title data) (td_description data)
                      false (now fresh) (now fresh) "temp" 1 in
  handleSubmit trim remote fresh f w =
  (Ok (mkForm "" "" false),
   mkWorld (db_put Task.id task (db_tasks w))
           (db_put SyncOperation.id
              (SyncOperation.mk (opId fresh) create (tempId fresh)
                                (PartialTask.of_task task) (now fresh) false)
              (db_syncQueue w))
           (useTaskStore.addTask task (taskStore w))
           (network w ++ [POST_tasks (create_body data)])).
Proof.
  intros Hon Ht Hc. apply String.eqb_neq in Ht.
  unfold handleSubmit. rewrite Ht.
  unfold try_catch, bind, getState, api.tasks_create, fetchApi, dispatch, ret.
  rewrite Hon, Hc. reflexivity.
Qed.

(** C3, as the code has it: when the form is submitted online and the
    create call succeeds, the returned task, with the id the server gave
    it, is appended to the tasks of the presentation store; the Local Store
    is not written and no operation is queued. *)
Theorem online_create_outcome (trim : string -> string) (remote : Remote)
        (fresh : Fresh) (f : Form) (w : World) (srv : Task.t) :
  useTaskStore.isOffline (taskStore w) = false ->
  trim (f_title f) <> "" ->
  on_create remote (create_body (taskData_of trim f)) = inr srv ->
  let w' := run (handleSubmit trim remote fresh f) w in
  result (handleSubmit trim remote fresh f) w = Ok (mkForm "" "" false) /\
  useTaskStore.tasks (taskStore w')
  = (useTaskStore.tasks (taskStore w) ++ [srv])%list /\
  db_tasks w' = db_tasks w /\
  db_syncQueue w' = db_syncQueue w /\
  network w'
  = (network w ++ [POST_tasks (create_body (taskData_of trim f))])%list.
Proof.
  intros Hon Ht Hc w'. unfold w', run, result.
  rewrite (handleSubmit_online_ok trim remote fresh f w srv Hon Ht Hc).
  simpl. auto.
Qed.

Lemma online_create_outcome_witness :
  useTaskStore.tasks (taskStore world_created_online) = [srv_42] /\
  db_tasks world_created_online = [] /\
  db_syncQueue world_created_online = [].
Proof.
  pose proof (online_create_outcome ascii_trim remote_creating fresh_b
                call_dentist initial_world srv_42) as H.
  destruct H as [_ [H2 [H3 [H4 _]]]].
  - reflexivity.
  - discriminate.
  - reflexivity.
  - repeat split; assumption.
Defined.

(** C3, counterexample (Scenario B): online, "Call dentist" is submitted
    and the server answers with id "srv-42"; afterwards the Local Store
    holds no record under "srv-42". *)
Lemma online_create_skips_local_store :
  ~ online_create_reaches_local_store ascii_trim remote_creating fresh_b
      call_dentist initial_world.
Proof.
  intros H.
  destruct (H srv_42) as [Hget _];
    [reflexivity | discriminate | reflexivity |].
  vm_compute in Hget. discriminate Hget.
Qed.

(** ** Resolving a conflict *)

Lemma resolveConflict_keep_local (remote : Remote) (taskId : string)
      (w : World) (localTask ack : Task.t) :
  db_get Task.id taskId (db_tasks w) = Some localTask ->
  on_update remote taskId (update_body (PartialTask.of_task localTask))
  = inr ack ->
  syncManager.resolveConflict remote taskId true w =
  (Ok tt,
   mkWorld (db_tasks w) (db_syncQueue w) (taskStore w)
           (network w ++
            [PUT_task taskId (update_body (PartialTask.of_task localTask))])).
Proof.
  intros Hg Hu. unfold_async. rewrite Hg, Hu. reflexivity.
Qed.

Lemma resolveConflict_keep_remote (remote : Remote) (taskId : string)
      (w : World) (remoteTask : Task.t) :
  on_get remote taskId = inr remoteTask ->
  syncManager.resolveConflict remote taskId false w =
  (Ok tt,
   mkWorld (db_put Task.id remoteTask (db_tasks w)) (db_syncQueue w)
           (useTaskStore.updateTask taskId (PartialTask.of_task remoteTask)
              (taskStore w))
           (network w ++ [GET_task taskId])).
Proof.
  intros Hg. unfold_async. rewrite Hg. reflexivity.
Qed.

(** C4, as the code has it: [resolveConflict(taskId, true)] hands the local
    record to the update call of the remote service, which sends its title,
    description and completed flag, and leaves the Local Store as it was,
    the local record included: the acknowledged record is dropped.
    [resolveConflict(taskId, false)] fetches the server's record, puts
    exactly that record in the Local Store under [taskId], and sends no
    request that writes. *)
Theorem resolveConflict_outcome (remote : Remote) (taskId : string)
        (w : World) (localTask ack remoteTask : Task.t) :
  db_get Task.id taskId (db_tasks w) = Some localTask ->
  on_update remote taskId (update_body (PartialTask.of_task localTask))
  = inr ack ->
  on_get remote taskId = inr remoteTask ->
  Task.id remoteTask = taskId ->
  let kept_local := run (syncManager.resolveConflict remote taskId true) w in
  let kept_remote := run (syncManager.resolveConflict remote taskId false) w in
  (result (syncManager.resolveConflict remote taskId true) w = Ok tt /\
   network kept_local
   = (network w ++
      [PUT_task taskId (update_body (PartialTask.of_task localTask))])%list /\
   db_tasks kept_local = db_tasks w /\
   db_get Task.id taskId (db_tasks kept_local) = Some localTask /\
   db_syncQueue kept_local = db_syncQueue w) /\
  (result (syncManager.resolveConflict remote taskId false) w = Ok tt /\
   db_get Task.id taskId (db_tasks kept_remote) = Some remoteTask /\
   network kept_remote = (network w ++ [GET_task taskId])%list /\
   filter is_write (network kept_remote) = filter is_write (network w) /\
   db_syncQueue kept_remote = db_syncQueue w).
Proof.
  intros Hg Hu Hr Hid kept_local kept_remote.
  unfold kept_local, kept_remote, run, result.
  rewrite (resolveConflict_keep_local remote taskId w localTask ack Hg Hu).
  rewrite (resolveConflict_keep_remote remote taskId w remoteTask Hr).
  simpl. split.
  - auto.
  - repeat split.
    + rewrite db_get_put, Hid, String.eqb_refl. reflexivity.
    + rewrite filter_app. simpl. apply app_nil_r.
Qed.

Lemma resolveConflict_outcome_witness :
  option_map Task.version
    (db_get Task.id "t1"
       (db_tasks (run (syncManager.resolveConflict remote_resolving "t1" true)
                      world_one_update))) = Some 2 /\
  db_get Task.id "t1"
    (db_tasks (run (syncManager.resolveConflict remote_resolving "t1" false)
                   world_one_update)) = Some t1_server.
Proof.
  pose proof (resolveConflict_outcome remote_resolving "t1" world_one_update
                (with_version 2 (with_updatedAt "2024-01-02T09:00:00.000Z"
                                   (spread t1_v1 mark_done)))
                t1_ack t1_server) as H.
  destruct H as [[_ [_ [_ [H4 _]]]] [_ [H6 _]]];
    try reflexivity.
  split; [rewrite H4; reflexivity | exact H6].
Defined.

(** C4, counterexample: "t1" is held locally at version 2, the server
    acknowledges the forced update with version 4; after keeping the local
    record the Local Store does not hold the acknowledged record. *)
Lemma keep_local_drops_acknowledgment :
  ~ keep_local_stores_acknowledgment remote_resolving "t1" world_one_update.
Proof.
  intros H.
  specialize (H (with_version 2 (with_updatedAt "2024-01-02T09:00:00.000Z"
                                   (spread t1_v1 mark_done)))
                t1_ack eq_refl eq_refl).
  vm_compute in H. discriminate H.
Qed.

(** ** Mutations whose direct call fails *)

Example ascii_trim_strips_both_ends :
  ascii_trim "  Buy milk  " = "Buy milk" /\ ascii_trim "   " = "".
Proof. split; reflexivity. Qed.

Lemma deleteTaskOffline_run (opId now id : string) (w : World) :
  syncManager.deleteTaskOffline opId now id w =
  (Ok tt,
   mkWorld (db_delete Task.id id (db_tasks w))
           (db_put SyncOperation.id
              (SyncOperation.mk opId delete id PartialTask.empty now false)
              (db_syncQueue w))
           (useTaskStore.deleteTask id (taskStore w))
           (network w)).
Proof. reflexivity. Qed.

Lemma handleToggleComplete_rejected (remote : Remote) (fresh : Fresh)
      (id : string) (w : World) (shown : Task.t) (e : ApiError) :
  useTaskStore.isOffline (taskStore w) = false ->
  find (fun t => String.eqb (Task.id t) id) (useTaskStore.tasks (taskStore w))
  = Some shown ->
  on_update remote id (update_body (toggle_updates shown)) = inl e ->
  handleToggleComplete remote fresh id w =
  syncManager.updateTaskOffline (now fresh) (opId fresh) id
    (toggle_updates shown)
    (mkWorld (db_tasks w) (db_syncQueue w) (taskStore w)
             (network w ++
              [PUT_task id (update_body (toggle_updates shown))])).
Proof.
  intros Hon Hf Hu.
  unfold handleToggleComplete, bind at 1, getState.
  rewrite Hf, Hon.
  unfold try_catch, bind at 1, api.tasks_update, fetchApi.
  rewrite Hu. reflexivity.
Qed.

Lemma handleDelete_rejected (remote : Remote) (fresh : Fresh)
      (id : string) (w : World) (e : ApiError) :
  useTaskStore.isOffline (taskStore w) = false ->
  on_delete remote id = inl e ->
  handleDelete remote fresh id w =
  syncManager.deleteTaskOffline (opId fresh) (now fresh) id
    (mkWorld (db_tasks w) (db_syncQueue w) (taskStore w)
             (network w ++ [DELETE_task id])).
Proof.
  intros Hon Hd.
  unfold handleDelete, bind at 1, getState. rewrite Hon.
  unfold try_catch, bind at 1, api.tasks_delete, fetchApi.
  rewrite Hd. reflexivity.
Qed.

Lemma queued_unsynced (op : SyncOperation.t) (w : World) :
  SyncOperation.synced op = false ->
  In op (db_syncQueue w) -> In op (unsynced w).
Proof.
  intros Hs Hin. unfold unsynced, db_getAll. apply filter_In.
  rewrite Hs. auto.
Qed.




(** What happens there: the handler rejects with 'Task not found', the
    Local Store and the queue are as before. *)
Lemma toggle_of_uncached_task_run :
  let call := request ascii_trim unreachable fresh_b (ToggleComplete "srv-42") in
  result call world_created_online = Throw (JsError "Task not found") /\
  db_tasks (run call world_created_online) = db_tasks world_created_online /\
  db_syncQueue (run call world_created_online)
  = db_syncQueue world_created_online.
Proof. vm_compute. auto. Qed.

(** ** Well-formed stores are an invariant of the engine *)

Lemma wf_initial : wf_world initial_world.
Proof. split; constructor. Qed.

Lemma preserves_ret {A : Type} (a : A) : preserves_wf (ret a).
Proof. intros w H. exact H. Qed.

Lemma preserves_throw {A : Type} (e : Exn) : preserves_wf (@throw A e).
Proof. intros w H. exact H. Qed.

Lemma preserves_bind {A B : Type} (c : M A) (k : A -> M B) :
  preserves_wf c -> (forall a, preserves_wf (k a)) -> preserves_wf (bind c k).
Proof.
  intros Hc Hk w H. unfold bind. specialize (Hc w H).
  destruct (c w) as [[a|e] w1]; simpl in *; [apply Hk; exact Hc | exact Hc].
Qed.

Lemma preserves_try_catch {A : Type} (c : M A) (h : Exn -> M A) :
  preserves_wf c -> (forall e, preserves_wf (h e)) ->
  preserves_wf (try_catch c h).
Proof.
  intros Hc Hh w H. unfold try_catch. specialize (Hc w H).
  destruct (c w) as [[a|e] w1]; simpl in *; [exact Hc | apply Hh; exact Hc].
Qed.

Lemma preserves_finally {A : Type} (c : M A) (f : M unit) :
  preserves_wf c -> preserves_wf f -> preserves_wf (finally c f).
Proof.
  intros Hc Hf w H. unfold finally. specialize (Hc w H).
  destruct (c w) as [r w1]; simpl in *. specialize (Hf w1 Hc).
  destruct (f w1) as [[[]|e] w2]; exact Hf.
Qed.

Lemma preserves_for_each {A : Type} (f : A -> M unit) (l : list A) :
  (forall x, preserves_wf (f x)) -> preserves_wf (for_each f l).
Proof.
  intros Hf. induction l as [|x l IH]; simpl.
  - apply preserves_ret.
  - apply preserves_bind; [apply Hf | intros _; exact IH].
Qed.

Lemma preserves_dispatch (f : useTaskStore.State -> useTaskStore.State) :
  preserves_wf (dispatch f).
Proof. intros w H. exact H. Qed.

Lemma preserves_fetchApi {A : Type} (req : Request) (answer : ApiError + A) :
  preserves_wf (fetchApi req answer).
Proof. intros w H. unfold fetchApi. destruct answer; exact H. Qed.

Lemma preserves_taskDB_put (k : Task.t) : preserves_wf (taskDB.put k).
Proof. intros w [H1 H2]. split; [apply wf_put; exact H1 | exact H2]. Qed.

Lemma preserves_taskDB_delete (id : string) : preserves_wf (taskDB.delete id).
Proof. intros w [H1 H2]. split; [apply wf_delete; exact H1 | exact H2]. Qed.

Lemma preserves_queue_add (op : SyncOperation.t) :
  preserves_wf (syncQueueDB.add op).
Proof. intros w [H1 H2]. split; [exact H1 | apply wf_put; exact H2]. Qed.

Lemma preserves_queue_delete (id : string) :
  preserves_wf (syncQueueDB.delete id).
Proof. intros w [H1 H2]. split; [exact H1 | apply wf_delete; exact H2]. Qed.

Lemma preserves_markSynced (id : string) :
  preserves_wf (syncQueueDB.markSynced id).
Proof.
  intros w [H1 H2]. unfold syncQueueDB.markSynced.
  destruct (db_get SyncOperation.id id (db_syncQueue w)); simpl.
  - split; [exact H1 | apply wf_put; exact H2].
  - split; assumption.
Qed.

Ltac preserves_step :=
  first
    [ apply preserves_ret | apply preserves_throw | apply preserves_dispatch
    | apply preserves_fetchApi | apply preserves_taskDB_put
    | apply preserves_taskDB_delete | apply preserves_queue_add
    | apply preserves_queue_delete | apply preserves_markSynced
    | apply preserves_bind; [|intros ?]
    | apply preserves_try_catch; [|intros ?]
    | apply preserves_finally
    | apply preserves_for_each; intros ? ].

Ltac preserves_auto :=
  repeat (preserves_step ||
          match goal with
          | |- preserves_wf (if ?b then _ else _) => destruct b
          | |- preserves_wf (match ?o with Some _ => _ | None => _ end) =>
              destruct o
          | |- preserves_wf getState => intros ? ?; assumption
          | |- preserves_wf taskDB.getAll => intros ? ?; assumption
          | |- preserves_wf (taskDB.get _) => intros ? ?; assumption
          | |- preserves_wf syncQueueDB.getAll => intros ? ?; assumption
          end).

(** Every operation of the engine and every handler keeps both stores
    well formed; they are well formed when the application starts. *)
Theorem engine_preserves_wf
        (trim : string -> string) (remote : Remote) (fresh : Fresh) :
  (forall data,
      preserves_wf (syncManager.createTaskOffline
                      (tempId fresh) (now fresh) (opId fresh) data)) /\
  (forall id updates,
      preserves_wf (syncManager.updateTaskOffline
                      (now fresh) (opId fresh) id updates)) /\
  (forall id,
      preserves_wf (syncManager.deleteTaskOffline
                      (opId fresh) (now fresh) id)) /\
  preserves_wf (syncManager.syncWithBackend remote) /\
  preserves_wf (syncManager.loadTasks remote) /\
  (forall id useLocal,
      preserves_wf (syncManager.resolveConflict remote id useLocal)) /\
  (forall m, preserves_wf (request trim remote fresh m)).
Proof.
  assert (Hc : forall data,
             preserves_wf (syncManager.createTaskOffline
                             (tempId fresh) (now fresh) (opId fresh) data)).
  { intros data. unfold syncManager.createTaskOffline. preserves_auto. }
  assert (Hu : forall id updates,
             preserves_wf (syncManager.updateTaskOffline
                             (now fresh) (opId fresh) id updates)).
  { intros id updates. unfold syncManager.updateTaskOffline. preserves_auto. }
  assert (Hd : forall id,
             preserves_wf (syncManager.deleteTaskOffline
                             (opId fresh) (now fresh) id)).
  { intros id. unfold syncManager.deleteTaskOffline. preserves_auto. }
  refine (conj Hc (conj Hu (conj Hd (conj _ (conj _ (conj _ _)))))).
  - unfold syncManager.syncWithBackend, syncQueueDB.getUnsynced,
      syncQueueDB.clearSynced, api.sync_syncOperations.
    preserves_auto.
  - unfold syncManager.loadTasks, taskDB.bulkPut, api.tasks_list.
    preserves_auto.
  - intros id useLocal.
    unfold syncManager.resolveConflict, api.tasks_update, api.tasks_get.
    preserves_auto.
  - intros [f|id|id]; simpl.
    + unfold handleSubmit, api.tasks_create. preserves_auto; apply Hc.
    + unfold handleToggleComplete, api.tasks_update.
      preserves_auto; apply Hu.
    + unfold handleDelete, api.tasks_delete. preserves_auto; apply Hd.
Qed.

(** ** The order of a batch *)

Lemma sorted_precedes {A : Type} (keyPath : A -> string) (l : list A)
      (a b : A) :
  wf_store keyPath l -> In a l -> In b l -> key_lt keyPath a b ->
  precedes a b l.
Proof.
  unfold wf_store, key_lt.
  induction l as [|x l IH]; intros Hs Ha Hb Hab; [destruct Ha|].
  inversion Hs as [|? ? Hl Hall]; subst. rewrite Forall_forall in Hall.
  destruct Ha as [->|Ha].
  - destruct Hb as [->|Hb].
    + rewrite cmp_refl in Hab. discriminate.
    + destruct (in_split _ _ Hb) as [l2 [l3 ->]].
      exists [], l2, l3. reflexivity.
  - destruct Hb as [->|Hb].
    + specialize (Hall a Ha). unfold key_lt in Hall.
      pose proof (cmp_lt_trans _ _ _ Hall Hab) as Hxx.
      rewrite cmp_refl in Hxx. discriminate.
    + destruct (IH Hl Ha Hb Hab) as [l1 [l2 [l3 ->]]].
      exists (x :: l1), l2, l3. reflexivity.
Qed.

(** Of two unsynced operations the one with the lower id is sent first,
    whichever was queued first. *)
Lemma batch_order_follows_ids (w : World) (a b : SyncOperation.t) :
  wf_store SyncOperation.id (db_syncQueue w) ->
  In a (unsynced w) -> In b (unsynced w) ->
  String.compare (SyncOperation.id a) (SyncOperation.id b) = Lt ->
  precedes a b (unsynced w).
Proof.
  intros Hwf Ha Hb Hab.
  apply (sorted_precedes SyncOperation.id);
    [apply unsynced_in_key_order; exact Hwf | exact Ha | exact Hb | exact Hab].
Qed.

(* ------------------------------------------------------------------ *)
(** * Further properties *)

(** ** The task store *)

Lemma db_delete_absent {A : Type} (keyPath : A -> string) (k : string)
      (s : list A) :
  db_get keyPath k s = None -> db_delete keyPath k s = s.
Proof.
  unfold db_delete. induction s as [|x s IH]; simpl; [reflexivity|].
  destruct (String.eqb k (keyPath x)); [discriminate|].
  intros H. simpl. f_equal. apply IH, H.
Qed.

Lemma db_put_put {A : Type} (keyPath : A -> string) (v v' : A) (s : list A) :
  keyPath v = keyPath v' ->
  db_put keyPath v' (db_put keyPath v s) = db_put keyPath v' s.
Proof.
  intros Hk. induction s as [|x s IH]; simpl.
  - rewrite <- Hk, cmp_refl. reflexivity.
  - rewrite <- Hk.
    destruct (String.compare (keyPath v) (keyPath x)) eqn:C; simpl.
    + rewrite <- Hk, cmp_refl. reflexivity.
    + rewrite <- Hk, cmp_refl. reflexivity.
    + rewrite <- Hk, C, IH. reflexivity.
Qed.

(** Two well-formed stores that answer every lookup alike are equal. *)
Lemma store_ext {A : Type} (keyPath : A -> string) (s1 s2 : list A) :
  wf_store keyPath s1 -> wf_store keyPath s2 ->
  (forall k, db_get keyPath k s1 = db_get keyPath k s2) ->
  s1 = s2.
Proof.
  revert s2. induction s1 as [|x1 s1 IH]; intros s2 H1 H2 Hext.
  - destruct s2 as [|x2 s2]; [reflexivity|].
    specialize (Hext (keyPath x2)). simpl in Hext.
    rewrite String.eqb_refl in Hext. discriminate.
  - destruct s2 as [|x2 s2].
    + specialize (Hext (keyPath x1)). simpl in Hext.
      rewrite String.eqb_refl in Hext. discriminate.
    + assert (Hx : x1 = x2).
      { pose proof (Hext (keyPath x1)) as E1.
        pose proof (Hext (keyPath x2)) as E2.
        simpl in E1, E2. rewrite String.eqb_refl in E1, E2.
        destruct (String.eqb (keyPath x1) (keyPath x2)) eqn:E.
        - congruence.
        - rewrite String.eqb_sym, E in E2.
          symmetry in E1.
          destruct (db_get_Some E1) as [_ In1].
          destruct (db_get_Some E2) as [_ In2].
          inversion H1 as [|? ? _ A1]; inversion H2 as [|? ? _ A2]; subst.
          rewrite Forall_forall in A1, A2.
          pose proof (A1 _ In2) as L1. pose proof (A2 _ In1) as L2.
          unfold key_lt in L1, L2.
          pose proof (cmp_lt_trans _ _ _ L1 L2) as L.
          rewrite cmp_refl in L. discriminate. }
      subst x2. f_equal.
      inversion H1 as [|? ? W1 A1]; inversion H2 as [|? ? W2 A2]; subst.
      apply IH; [exact W1 | exact W2 |].
      intros k. specialize (Hext k). simpl in Hext.
      destruct (String.eqb k (keyPath x1)) eqn:E; [|exact Hext].
      apply String.eqb_eq in E. subst k.
      destruct (db_get keyPath (keyPath x1) s1) as [y|] eqn:G1.
      { destruct (db_get_Some G1) as [Hk Hin].
        pose proof (wf_tail_neq _ _ _ _ H1 y Hin) as N.
        rewrite Hk, String.eqb_refl in N. discriminate. }
      destruct (db_get keyPath (keyPath x1) s2) as [y|] eqn:G2;
        [|reflexivity].
      destruct (db_get_Some G2) as [Hk Hin].
      pose proof (wf_tail_neq _ _ _ _ H2 y Hin) as N.
      rewrite Hk, String.eqb_refl in N. discriminate.
Qed.

Lemma wf_bulk (l s : list Task.t) :
  wf_store Task.id s ->
  wf_store Task.id (fold_left (fun s t => db_put Task.id t s) l s).
Proof.
  revert s. induction l as [|x l IH]; intros s H; simpl;
    [exact H | apply IH, wf_put, H].
Qed.

(** X1: a task put in the store is what a lookup of its id returns, and
    the lookup of any other id is what it was before the put. *)
Theorem taskDB_put_then_get (task : Task.t) (id : string) (w : World) :
  result (taskDB.put task ;; taskDB.get id) w =
  Ok (if String.eqb id (Task.id task) then Some task
      else db_get Task.id id (db_tasks w)).
Proof.
  unfold result, bind, taskDB.put, taskDB.get. simpl.
  rewrite db_get_put. reflexivity.
Qed.

(** X2: after [taskDB.delete(id)] a lookup of [id] finds nothing and the
    lookup of any other id is what it was. *)
Theorem taskDB_delete_then_get (id id' : string) (w : World) :
  result (taskDB.delete id ;; taskDB.get id') w =
  Ok (if String.eqb id' id then None else db_get Task.id id' (db_tasks w)).
Proof.
  unfold result, bind, taskDB.delete, taskDB.get. simpl.
  rewrite db_get_delete. reflexivity.
Qed.

(** X3: deleting an id the store does not hold changes nothing. *)
Theorem taskDB_delete_absent (id : string) (w : World) :
  db_get Task.id id (db_tasks w) = None ->
  taskDB.delete id w = (Ok tt, w).
Proof.
  intros H. unfold taskDB.delete, set_db_tasks.
  rewrite (db_delete_absent Task.id id (db_tasks w) H).
  destruct w; reflexivity.
Qed.

Lemma taskDB_delete_absent_witness :
  taskDB.delete "t9" world_loaded = (Ok tt, world_loaded).
Proof.
  apply (taskDB_delete_absent "t9" world_loaded). reflexivity.
Defined.

(** X4: of two puts under one id only the second counts: the store is as
    if the first had not happened. *)
Theorem taskDB_put_overwrites (t1 t2 : Task.t) (w : World) :
  Task.id t1 = Task.id t2 ->
  run (taskDB.put t1 ;; taskDB.put t2) w = run (taskDB.put t2) w.
Proof.
  intros H. unfold run, bind, taskDB.put, set_db_tasks. simpl.
  rewrite (db_put_put Task.id t1 t2 (db_tasks w) H). reflexivity.
Qed.

Lemma taskDB_put_overwrites_witness :
  run (taskDB.put t1_server ;; taskDB.put t1_ack) world_loaded
  = run (taskDB.put t1_ack) world_loaded.
Proof.
  apply (taskDB_put_overwrites t1_server t1_ack world_loaded). reflexivity.
Defined.

(** X5: writing the same list twice with [taskDB.bulkPut] leaves the store
    as writing it once, also when the list holds an id more than once. *)
Theorem bulkPut_twice (l : list Task.t) (w : World) :
  wf_store Task.id (db_tasks w) ->
  run (taskDB.bulkPut l ;; taskDB.bulkPut l) w = run (taskDB.bulkPut l) w.
Proof.
  intros Hwf. unfold run, bind. rewrite bulkPut_run. rewrite bulkPut_run.
  unfold set_db_tasks. simpl. f_equal.
  apply (store_ext Task.id).
  - apply wf_bulk, wf_bulk, Hwf.
  - apply wf_bulk, Hwf.
  - intros k. rewrite !db_get_bulk.
    destruct (last_with_id k l); reflexivity.
Qed.

Lemma bulkPut_twice_witness :
  run (taskDB.bulkPut [t1_server; t2_v1; t1_ack] ;;
       taskDB.bulkPut [t1_server; t2_v1; t1_ack]) world_loaded
  = run (taskDB.bulkPut [t1_server; t2_v1; t1_ack]) world_loaded.
Proof.
  apply (bulkPut_twice [t1_server; t2_v1; t1_ack] world_loaded).
  vm_compute. repeat constructor.
Defined.

(** ** The queue *)

(** X6: on a well-formed queue [markSynced(id)] takes the operation stored
    under [id], and no other, out of what [getUnsynced] returns; it keeps
    the order of the others and does not touch the tasks. *)
Theorem markSynced_hides_one (id : string) (w : World) :
  wf_store SyncOperation.id (db_syncQueue w) ->
  let w' := run (syncQueueDB.markSynced id) w in
  unsynced w'
  = filter (fun op => negb (String.eqb (SyncOperation.id op) id)) (unsynced w)
  /\ db_tasks w' = db_tasks w
  /\ List.length (db_syncQueue w') = List.length (db_syncQueue w).
Proof.
  intros Hwf w'. unfold w', run. rewrite (markSynced_run id w Hwf).
  unfold unsynced, db_getAll. simpl. split; [|split].
  - clear Hwf. induction (db_syncQueue w) as [|x q IH]; simpl; [reflexivity|].
    destruct (String.eqb (SyncOperation.id x) id) eqn:E; simpl.
    + destruct (SyncOperation.synced x); simpl; rewrite ?E; simpl; exact IH.
    + destruct (SyncOperation.synced x); simpl; rewrite ?E; simpl;
        [exact IH | f_equal; exact IH].
  - reflexivity.
  - apply length_map.
Qed.

Lemma markSynced_hides_one_witness :
  unsynced (run (syncQueueDB.markSynced "1704186000000-k3x9q1z7a")
                world_two_updates) = [second_queued].
Proof.
  pose proof (markSynced_hides_one "1704186000000-k3x9q1z7a"
                world_two_updates) as H.
  destruct H as [H _].
  - vm_compute. repeat constructor.
  - rewrite H. reflexivity.
Defined.

Lemma delete_each_filter {A : Type} (keyPath : A -> string) (l q : list A) :
  fold_left (fun q op => db_delete keyPath (keyPath op) q) l q =
  filter (fun x => negb (existsb (fun op => String.eqb (keyPath op) (keyPath x))
                                 l)) q.
Proof.
  revert q. induction l as [|a l IH]; intros q; simpl.
  - induction q as [|x q IHq]; simpl; [reflexivity | f_equal; exact IHq].
  - rewrite IH. unfold db_delete.
    induction q as [|x q IHq]; simpl; [reflexivity|].
    destruct (String.eqb (keyPath a) (keyPath x)); simpl;
      [exact IHq|].
    destruct (existsb _ l); simpl; [exact IHq | f_equal; exact IHq].
Qed.

Lemma filter_idem {A : Type} (f : A -> bool) (l : list A) :
  filter f (filter f l) = filter f l.
Proof.
  induction l as [|x l IH]; simpl; [reflexivity|].
  destruct (f x) eqn:E; simpl; rewrite ?E, IH; reflexivity.
Qed.

(** X7: on a well-formed queue [clearSynced] deletes every operation
    flagged synced and no other: what is left is what [getUnsynced]
    returned before, in the same order. *)
Theorem clearSynced_keeps_unsynced (w : World) :
  wf_store SyncOperation.id (db_syncQueue w) ->
  let w' := run syncQueueDB.clearSynced w in
  result syncQueueDB.clearSynced w = Ok tt /\
  db_syncQueue w' = unsynced w /\
  unsynced w' = unsynced w /\
  db_tasks w' = db_tasks w.
Proof.
  intros Hwf w'. unfold w', run, result.
  unfold syncQueueDB.clearSynced, syncQueueDB.getAll, bind, db_getAll.
  rewrite for_each_delete_run. simpl.
  rewrite delete_each_filter.
  assert (Hq : filter
                 (fun x => negb (existsb
                    (fun op => String.eqb (SyncOperation.id op)
                                          (SyncOperation.id x))
                    (filter SyncOperation.synced (db_syncQueue w))))
                 (db_syncQueue w) = unsynced w).
  { unfold unsynced, db_getAll. apply filter_ext_in. intros x Hx. f_equal.
    destruct (SyncOperation.synced x) eqn:S.
    - apply existsb_exists. exists x. split.
      + apply filter_In. auto.
      + apply String.eqb_refl.
    - destruct (existsb _ _) eqn:E; [|reflexivity].
      apply existsb_exists in E. destruct E as [y [Hy Hid]].
      apply filter_In in Hy. destruct Hy as [Hy Sy].
      apply String.eqb_eq in Hid.
      pose proof (wf_get_In Hwf Hx) as Gx.
      pose proof (wf_get_In Hwf Hy) as Gy.
      rewrite Hid, Gx in Gy. injection Gy as ->. congruence. }
  rewrite Hq. repeat split.
  unfold unsynced, db_getAll. simpl. apply filter_idem.
Qed.

Lemma clearSynced_keeps_unsynced_witness :
  db_syncQueue
    (run syncQueueDB.clearSynced
       (run (syncQueueDB.markSynced "1704186000000-k3x9q1z7a")
            world_two_updates)) = [second_queued].
Proof.
  pose proof (clearSynced_keeps_unsynced
                (run (syncQueueDB.markSynced "1704186000000-k3x9q1z7a")
                     world_two_updates)) as H.
  destruct H as [_ [H _]].
  - vm_compute. repeat constructor.
  - rewrite H. reflexivity.
Defined.

(** ** The handlers, case by case *)

Lemma handleSubmit_blank (trim : string -> string) (remote : Remote)
      (fresh : Fresh) (f : Form) (w : World) :
  trim (f_title f) = "" ->
  handleSubmit trim remote fresh f w = (Ok f, w).
Proof.
  intros H. unfold handleSubmit. rewrite H. reflexivity.
Qed.

Lemma handleSubmit_offline (trim : string -> string) (remote : Remote)
      (fresh : Fresh) (f : Form) (w : World) :
  useTaskStore.isOffline (taskStore w) = true ->
  trim (f_title f) <> "" ->
  let data := taskData_of trim f in
  let task := Task.mk (tempId fresh) (td_title data) (td_description data)
                      false (now fresh) (now fresh) "temp" 1 in
  handleSubmit trim remote fresh f w =
  (Ok (mkForm "" "" false),
   mkWorld (db_put Task.id task (db_tasks w))
           (db_put SyncOperation.id
              (SyncOperation.mk (opId fresh) create (tempId fresh)
                                (PartialTask.of_task task) (now fresh) false)
              (db_syncQueue w))
           (useTaskStore.addTask task (taskStore w))
           (network w)).
Proof.
  intros Hoff Ht. apply String.eqb_neq in Ht.
  unfold handleSubmit. rewrite Ht.
  unfold try_catch, bind, getState, ret. rewrite Hoff. reflexivity.
Qed.

Lemma handleToggleComplete_hidden (remote : Remote) (fresh : Fresh)
      (id : string) (w : World) :
  shown_task id w = None ->
  handleToggleComplete remote fresh id w = (Ok tt, w).
Proof.
  unfold shown_task. intros H.
  unfold handleToggleComplete, bind, getState. rewrite H. reflexivity.
Qed.

Lemma handleToggleComplete_offline (remote : Remote) (fresh : Fresh)
      (id : string) (w : World) (shown : Task.t) :
  useTaskStore.isOffline (taskStore w) = true ->
  shown_task id w = Some shown ->
  handleToggleComplete remote fresh id w =
  syncManager.updateTaskOffline (now fresh) (opId fresh) id
                                (toggle_updates shown) w.
Proof.
  unfold shown_task. intros Hoff H.
  unfold handleToggleComplete, bind at 1, getState. rewrite H, Hoff.
  reflexivity.
Qed.

Lemma handleToggleComplete_online_ok (remote : Remote) (fresh : Fresh)
      (id : string) (w : World) (shown ack : Task.t) :
  useTaskStore.isOffline (taskStore w) = false ->
  shown_task id w = Some shown ->
  on_update remote id (update_body (toggle_updates shown)) = inr ack ->
  handleToggleComplete remote fresh id w =
  (Ok tt,
   mkWorld (db_tasks w) (db_syncQueue w)
           (useTaskStore.updateTask id (toggle_updates shown) (taskStore w))
           (network w ++ [PUT_task id (update_body (toggle_updates shown))])).
Proof.
  unfold shown_task. intros Hon H Hu.
  unfold handleToggleComplete, bind at 1, getState. rewrite H, Hon.
  unfold try_catch, bind, api.tasks_update, fetchApi, dispatch.
  rewrite Hu. reflexivity.
Qed.

Lemma handleDelete_offline (remote : Remote) (fresh : Fresh)
      (id : string) (w : World) :
  useTaskStore.isOffline (taskStore w) = true ->
  handleDelete remote fresh id w =
  syncManager.deleteTaskOffline (opId fresh) (now fresh) id w.
Proof.
  intros Hoff. unfold handleDelete, bind at 1, getState. rewrite Hoff.
  reflexivity.
Qed.

Lemma handleDelete_online_ok (remote : Remote) (fresh : Fresh)
      (id : string) (w : World) (ack : DeleteAck) :
  useTaskStore.isOffline (taskStore w) = false ->
  on_delete remote id = inr ack ->
  handleDelete remote fresh id w =
  (Ok tt,
   mkWorld (db_tasks w) (db_syncQueue w)
           (useTaskStore.deleteTask id (taskStore w))
           (network w ++ [DELETE_task id])).
Proof.
  intros Hon Hd. unfold handleDelete, bind at 1, getState. rewrite Hon.
  unfold try_catch, bind, api.tasks_delete, fetchApi, dispatch.
  rewrite Hd. reflexivity.
Qed.

Lemma updateTaskOffline_network (now opId id : string)
      (updates : PartialTask.t) (w : World) :
  network (snd (syncManager.updateTaskOffline now opId id updates w))
  = network w.
Proof.
  destruct (db_get Task.id id (db_tasks w)) as [task|] eqn:G.
  - rewrite (updateTaskOffline_present _ _ _ _ _ _ G). reflexivity.
  - rewrite (updateTaskOffline_missing _ _ _ _ _ G). reflexivity.
Qed.

(** X8: in offline mode no handler sends a request, whatever the mutation
    and whether or not it can be carried out. *)
Theorem offline_mode_sends_nothing
        (trim : string -> string) (remote : Remote) (fresh : Fresh)
        (m : Mutation) (w : World) :
  useTaskStore.isOffline (taskStore w) = true ->
  network (run (request trim remote fresh m) w) = network w.
Proof.
  intros Hoff. unfold run. destruct m as [f|id|id]; simpl.
  - unfold bind.
    destruct (String.eqb (trim (f_title f)) "") eqn:E.
    + apply String.eqb_eq in E.
      rewrite (handleSubmit_blank trim remote fresh f w E). reflexivity.
    + apply String.eqb_neq in E.
      rewrite (handleSubmit_offline trim remote fresh f w Hoff E).
      reflexivity.
  - destruct (shown_task id w) as [shown|] eqn:S.
    + rewrite (handleToggleComplete_offline remote fresh id w shown Hoff S).
      apply updateTaskOffline_network.
    + rewrite (handleToggleComplete_hidden remote fresh id w S). reflexivity.
  - rewrite (handleDelete_offline remote fresh id w Hoff). reflexivity.
Qed.

Lemma offline_mode_sends_nothing_witness :
  network world_milk_offline = network world_offline.
Proof.
  pose proof (offline_mode_sends_nothing ascii_trim unreachable fresh_b
                (CreateTask buy_milk) world_offline eq_refl) as H.
  unfold run, request, bind in H.
  unfold world_milk_offline, run.
  destruct (handleSubmit ascii_trim unreachable fresh_b buy_milk world_offline)
    as [[f'|e] w']; exact H.
Defined.

(** X9: in offline mode a create with a title that is not blank, a toggle
    of a task that is shown and held by the Local Store, and a delete are
    applied to the Local Store and leave the matching unsynced operation in
    the queue; the handler resolves. *)
Theorem offline_mode_applies_and_queues
        (trim : string -> string) (remote : Remote) (fresh : Fresh)
        (m : Mutation) (w : World) :
  requested_offline trim m w ->
  held_locally m w ->
  applied_and_queued trim fresh m w (run (request trim remote fresh m) w) /\
  result (request trim remote fresh m) w = Ok tt.
Proof.
  intros [Hoff Hreq] Hheld. unfold run, result.
  destruct m as [f|id|id]; simpl in *.
  - unfold bind.
    rewrite (handleSubmit_offline trim remote fresh f w Hoff Hreq).
    simpl. split; [split|reflexivity].
    + rewrite db_get_put. simpl. rewrite String.eqb_refl. reflexivity.
    + apply queued_unsynced; [reflexivity | apply db_put_In].
  - destruct Hreq as [shown Hs].
    destruct (db_get Task.id id (db_tasks w)) as [stored|] eqn:G;
      [|congruence].
    destruct (db_get_Some G) as [Hid _].
    rewrite (handleToggleComplete_offline remote fresh id w shown Hoff Hs).
    rewrite (updateTaskOffline_present _ _ _ _ _ stored) by exact G.
    cbn [fst snd db_tasks]. split; [|reflexivity].
    exists shown, (toggled (now fresh) stored shown).
    split; [exact Hs|]. split; [|split; [reflexivity|]].
    + rewrite db_get_put.
      cbn [toggled with_version with_updatedAt spread toggle_updates
           PartialTask.id or_else Task.id].
      rewrite Hid, String.eqb_refl. reflexivity.
    + apply queued_unsynced; [reflexivity | apply db_put_In].
  - rewrite (handleDelete_offline remote fresh id w Hoff).
    rewrite deleteTaskOffline_run. simpl. split; [split|reflexivity].
    + rewrite db_get_delete, String.eqb_refl. reflexivity.
    + apply queued_unsynced; [reflexivity | apply db_put_In].
Qed.

Lemma offline_mode_applies_and_queues_witness :
  applied_and_queued ascii_trim fresh_b (CreateTask buy_milk) world_offline
    (run (request ascii_trim unreachable fresh_b (CreateTask buy_milk))
         world_offline).
Proof.
  apply (offline_mode_applies_and_queues ascii_trim unreachable fresh_b
           (CreateTask buy_milk) world_offline).
  - split; [reflexivity | discriminate].
  - exact I.
Defined.

Lemma updateTaskOffline_result (now opId id : string)
      (updates : PartialTask.t) (w : World) :
  fst (syncManager.updateTaskOffline now opId id updates w) =
  match db_get Task.id id (db_tasks w) with
  | Some _ => Ok tt
  | None => Throw (JsError "Task not found")
  end.
Proof.
  destruct (db_get Task.id id (db_tasks w)) as [task|] eqn:G.
  - rewrite (updateTaskOffline_present _ _ _ _ _ _ G). reflexivity.
  - rewrite (updateTaskOffline_missing _ _ _ _ _ G). reflexivity.
Qed.

(** X10: [handleToggleComplete] rejects in one situation only: the task is
    shown, the Local Store does not hold it, and the direct call is not
    made (offline mode) or fails.  The error is then 'Task not found'; the
    error of the failed call itself never reaches the caller. *)
Theorem handleToggleComplete_rejects_iff (remote : Remote) (fresh : Fresh)
        (id : string) (w : World) :
  (forall e, result (handleToggleComplete remote fresh id) w = Throw e ->
             e = JsError "Task not found") /\
  (result (handleToggleComplete remote fresh id) w
   = Throw (JsError "Task not found")
   <->
   exists shown,
     shown_task id w = Some shown /\
     db_get Task.id id (db_tasks w) = None /\
     (useTaskStore.isOffline (taskStore w) = true \/
      exists e, on_update remote id (update_body (toggle_updates shown))
                = inl e)).
Proof.
  unfold result.
  destruct (shown_task id w) as [shown|] eqn:S.
  - destruct (useTaskStore.isOffline (taskStore w)) eqn:Off.
    + rewrite (handleToggleComplete_offline remote fresh id w shown Off S).
      rewrite updateTaskOffline_result.
      destruct (db_get Task.id id (db_tasks w)) as [stored|] eqn:G.
      * split; [intros e; discriminate|].
        split; [discriminate|].
        intros [s [_ [H _]]]. discriminate.
      * split; [intros e [= <-]; reflexivity|].
        split; [|reflexivity].
        intros _. exists shown. auto.
    + destruct (on_update remote id (update_body (toggle_updates shown)))
        as [e|ack] eqn:U.
      * unfold shown_task in S.
        rewrite (handleToggleComplete_rejected remote fresh id w shown e
                   Off S U).
        rewrite updateTaskOffline_result. cbn [db_tasks].
        destruct (db_get Task.id id (db_tasks w)) as [stored|] eqn:G.
        -- split; [intros e'; discriminate|].
           split; [discriminate|].
           intros [s [_ [H _]]]. discriminate.
        -- split; [intros e' [= <-]; reflexivity|].
           split; [|reflexivity].
           intros _. exists shown. split; [reflexivity|].
           split; [reflexivity|]. right. exists e. exact U.
      * rewrite (handleToggleComplete_online_ok remote fresh id w shown ack
                   Off S U).
        split; [intros e; discriminate|].
        split; [discriminate|].
        intros [s [Hs [_ [H|[e H]]]]]; [discriminate|].
        injection Hs as <-. congruence.
  - rewrite (handleToggleComplete_hidden remote fresh id w S).
    split; [intros e; discriminate|].
    split; [discriminate|].
    intros [s [H _]]. discriminate.
Qed.

(** X11: [handleSubmit] and [handleDelete] always resolve, whatever the
    remote service answers and whatever the stores hold.  With a title
    that is not blank [handleSubmit] hands back the form cleared and not
    submitting; with a blank title it does nothing at all: the form, both
    stores, the presentation store and the request log are as they
    were. *)
Theorem submit_and_delete_never_reject
        (trim : string -> string) (remote : Remote) (fresh : Fresh)
        (w : World) :
  (forall f, exists f',
      result (handleSubmit trim remote fresh f) w = Ok f' /\
      (trim (f_title f) <> "" -> f' = mkForm "" "" false) /\
      (trim (f_title f) = "" ->
       f' = f /\ run (handleSubmit trim remote fresh f) w = w)) /\
  (forall id, result (handleDelete remote fresh id) w = Ok tt).
Proof.
  unfold result, run. split.
  - intros f.
    destruct (String.eqb (trim (f_title f)) "") eqn:E.
    + apply String.eqb_eq in E.
      rewrite (handleSubmit_blank trim remote fresh f w E).
      exists f. split; [reflexivity|].
      split; [congruence | intros _; split; reflexivity].
    + apply String.eqb_neq in E. exists (mkForm "" "" false).
      split; [|split; [reflexivity | congruence]].
      destruct (useTaskStore.isOffline (taskStore w)) eqn:Off.
      * rewrite (handleSubmit_offline trim remote fresh f w Off E).
        reflexivity.
      * destruct (on_create remote (create_body (taskData_of trim f)))
          as [e|srv] eqn:C.
        -- rewrite (handleSubmit_online_rejected trim remote fresh f w e
                      Off E C). reflexivity.
        -- rewrite (handleSubmit_online_ok trim remote fresh f w srv
                      Off E C). reflexivity.
  - intros id.
    destruct (useTaskStore.isOffline (taskStore w)) eqn:Off.
    + rewrite (handleDelete_offline remote fresh id w Off). reflexivity.
    + destruct (on_delete remote id) as [e|ack] eqn:D.
      * rewrite (handleDelete_rejected remote fresh id w e Off D).
        reflexivity.
      * rewrite (handleDelete_online_ok remote fresh id w ack Off D).
        reflexivity.
Qed.

(** X12: when the direct call of a handler is answered, neither the Local
    Store nor the queue is written, for a create, a toggle and a delete
    alike: only the presentation store changes, and one request is sent. *)
Theorem online_success_writes_no_store
        (trim : string -> string) (remote : Remote) (fresh : Fresh)
        (m : Mutation) (w : World) :
  direct_call_succeeds trim remote m w ->
  let w' := run (request trim remote fresh m) w in
  result (request trim remote fresh m) w = Ok tt /\
  db_tasks w' = db_tasks w /\
  db_syncQueue w' = db_syncQueue w /\
  exists req, network w' = (network w ++ [req])%list /\ is_write req = true.
Proof.
  intros [Hon Hok] w'. unfold w', run, result. clear w'.
  destruct m as [f|id|id]; simpl in *.
  - destruct Hok as [Ht [srv Hc]]. unfold bind.
    rewrite (handleSubmit_online_ok trim remote fresh f w srv Hon Ht Hc).
    simpl. repeat (split; [reflexivity|]).
    eexists. split; reflexivity.
  - destruct Hok as [shown [ack [Hs Hu]]].
    rewrite (handleToggleComplete_online_ok remote fresh id w shown ack
               Hon Hs Hu).
    simpl. repeat (split; [reflexivity|]).
    eexists. split; reflexivity.
  - destruct Hok as [ack Hd].
    rewrite (handleDelete_online_ok remote fresh id w ack Hon Hd).
    simpl. repeat (split; [reflexivity|]).
    eexists. split; reflexivity.
Qed.

Lemma online_success_writes_no_store_witness :
  db_tasks (run (request ascii_trim remote_deleting fresh_b (DeleteTask "t1"))
                world_loaded) = [t1_v1].
Proof.
  pose proof (online_success_writes_no_store ascii_trim remote_deleting
                fresh_b (DeleteTask "t1") world_loaded) as H.
  destruct H as [_ [H _]].
  - split; [reflexivity|]. eexists. reflexivity.
  - rewrite H. reflexivity.
Defined.

Lemma find_deleted (id : string) (l : list Task.t) :
  find (fun t => String.eqb (Task.id t) id)
       (filter (fun task => negb (String.eqb (Task.id task) id)) l) = None.
Proof.
  induction l as [|x l IH]; simpl; [reflexivity|].
  destruct (String.eqb (Task.id x) id) eqn:E; simpl; [exact IH|].
  rewrite E. exact IH.
Qed.

(** X13: a task the Local Store holds, deleted while online with the call
    answered, is gone from the presentation store; when the next load
    cannot reach the server it is shown again, because the online delete
    never removed it from the Local Store. *)
Theorem deleted_online_reappears_offline
        (remote later : Remote) (fresh : Fresh) (id : string) (w : World)
        (cached : Task.t) (ack : DeleteAck) (e : ApiError) :
  useTaskStore.isOffline (taskStore w) = false ->
  on_delete remote id = inr ack ->
  db_get Task.id id (db_tasks w) = Some cached ->
  on_list later = inl e ->
  let w1 := run (handleDelete remote fresh id) w in
  let w2 := run (syncManager.loadTasks later) w1 in
  shown_task id w1 = None /\
  In cached (useTaskStore.tasks (taskStore w2)) /\
  db_syncQueue w2 = db_syncQueue w.
Proof.
  intros Hon Hd Hc Hl w1 w2. unfold w2, w1, run, shown_task.
  rewrite (handleDelete_online_ok remote fresh id w ack Hon Hd).
  cbn [snd].
  rewrite (loadTasks_unreachable later _ e Hl). simpl.
  split; [apply find_deleted|]. split; [|reflexivity].
  unfold db_getAll. destruct (db_get_Some Hc) as [_ Hin]. exact Hin.
Qed.

Lemma deleted_online_reappears_offline_witness :
  shown_task "t1" (run (handleDelete remote_deleting fresh_b "t1")
                       world_loaded) = None /\
  In t1_v1
     (useTaskStore.tasks
        (taskStore (run (syncManager.loadTasks unreachable)
                        (run (handleDelete remote_deleting fresh_b "t1")
                             world_loaded)))).
Proof.
  pose proof (deleted_online_reappears_offline remote_deleting unreachable
                fresh_b "t1" world_loaded t1_v1
                (mkDeleteAck "Task moved to trash" "t1") network_error) as H.
  destruct H as [H1 [H2 _]]; try reflexivity.
  split; assumption.
Defined.

(** ** The offline operations *)

(** X14: the record [updateTaskOffline] writes carries the stored version
    plus one and the date of the call, also when [updates] brings a
    [version] or an [updatedAt] of its own; the queued operation carries
    [updates] as it was given. *)
Theorem updateTaskOffline_stamps_version_and_date
        (now opId id : string) (updates : PartialTask.t) (w : World)
        (task : Task.t) :
  db_get Task.id id (db_tasks w) = Some task ->
  let w' := run (syncManager.updateTaskOffline now opId id updates) w in
  exists written,
    db_get Task.id (or_else (PartialTask.id updates) id) (db_tasks w')
    = Some written /\
    Task.version written = Task.version task + 1 /\
    Task.updatedAt written = now /\
    In (SyncOperation.mk opId update id updates now false) (unsynced w').
Proof.
  intros G w'. unfold w', run.
  rewrite (updateTaskOffline_present _ _ _ _ _ _ G). cbn [snd db_tasks].
  destruct (db_get_Some G) as [Hid _].
  exists (with_version (Task.version task + 1)
            (with_updatedAt now (spread task updates))).
  split; [|split; [reflexivity|split; [reflexivity|]]].
  - rewrite db_get_put. cbn [with_version with_updatedAt spread Task.id].
    rewrite Hid, String.eqb_refl. reflexivity.
  - apply queued_unsynced; [reflexivity | apply db_put_In].
Qed.

Lemma updateTaskOffline_stamps_witness :
  option_map Task.version
    (db_get Task.id "t1"
       (db_tasks (run (syncManager.updateTaskOffline
                         "2024-01-02T09:00:00.000Z" "1704186000000-k3x9q1z7a"
                         "t1" forged_update) world_loaded))) = Some 2.
Proof.
  pose proof (updateTaskOffline_stamps_version_and_date
                "2024-01-02T09:00:00.000Z" "1704186000000-k3x9q1z7a" "t1"
                forged_update world_loaded t1_v1 eq_refl) as H.
  destruct H as [written [Hg [Hv _]]].
  assert (E : db_get Task.id "t1"
                (db_tasks (run (syncManager.updateTaskOffline
                         "2024-01-02T09:00:00.000Z" "1704186000000-k3x9q1z7a"
                         "t1" forged_update) world_loaded)) = Some written)
    by exact Hg.
  rewrite E. simpl. rewrite Hv. reflexivity.
Defined.

Lemma find_map_same {A : Type} (p : A -> bool) (f : A -> A) (l : list A) :
  (forall x, p (f x) = p x) ->
  find p (map f l) = option_map f (find p l).
Proof.
  intros H. induction l as [|x l IH]; simpl; [reflexivity|].
  rewrite H. destruct (p x); [reflexivity | exact IH].
Qed.

(** X15: when the presentation store and the Local Store hold the same
    record of a task, after [updateTaskOffline] they hold the same merged
    record with the same new version, except for [updatedAt]: the Local
    Store has the date of the call, the presentation store has not. *)
Theorem updateTaskOffline_views_differ_in_date
        (now opId id : string) (updates : PartialTask.t) (w : World)
        (task : Task.t) :
  db_get Task.id id (db_tasks w) = Some task ->
  shown_task id w = Some task ->
  keeps_id id updates ->
  let w' := run (syncManager.updateTaskOffline now opId id updates) w in
  exists shown stored,
    shown_task id w' = Some shown /\
    db_get Task.id id (db_tasks w') = Some stored /\
    stored = with_updatedAt now shown /\
    Task.version shown = Task.version task + 1 /\
    Task.updatedAt shown
    = or_else (PartialTask.updatedAt updates) (Task.updatedAt task).
Proof.
  intros G S K w'. unfold w', run, shown_task in *.
  rewrite (updateTaskOffline_present _ _ _ _ _ _ G).
  cbn [snd db_tasks taskStore useTaskStore.updateTask useTaskStore.tasks].
  destruct (db_get_Some G) as [Hid _]. unfold keeps_id in K.
  exists (with_version (Task.version task + 1) (spread task updates)),
         (with_version (Task.version task + 1)
            (with_updatedAt now (spread task updates))).
  split; [|split; [|split; [reflexivity|split; reflexivity]]].
  - rewrite find_map_same.
    + rewrite S. simpl. rewrite Hid, String.eqb_refl. reflexivity.
    + intros x. destruct (String.eqb (Task.id x) id) eqn:E; [|exact E].
      apply String.eqb_eq in E. simpl. rewrite E, K.
      apply String.eqb_refl.
  - rewrite db_get_put. cbn [with_version with_updatedAt spread Task.id].
    rewrite Hid, K, String.eqb_refl. reflexivity.
Qed.

Lemma updateTaskOffline_views_differ_witness :
  option_map Task.updatedAt (shown_task "t1" world_one_update)
  = Some "2024-01-01T09:00:00.000Z" /\
  option_map Task.updatedAt (db_get Task.id "t1" (db_tasks world_one_update))
  = Some "2024-01-02T09:00:00.000Z".
Proof.
  pose proof (updateTaskOffline_views_differ_in_date
                "2024-01-02T09:00:00.000Z" "1704186000000-k3x9q1z7a" "t1"
                mark_done world_loaded t1_v1 eq_refl eq_refl eq_refl) as H.
  destruct H as [shown [stored [H1 [H2 [H3 [_ H5]]]]]].
  unfold world_one_update. rewrite H1, H2, H3. simpl. rewrite H5.
  split; reflexivity.
Defined.

(** X16: [deleteTaskOffline] on an id the Local Store does not hold still
    queues a delete operation for that id; the task records are as they
    were and nothing is sent. *)
Theorem deleteTaskOffline_of_unknown_id (opId now id : string) (w : World) :
  db_get Task.id id (db_tasks w) = None ->
  let w' := run (syncManager.deleteTaskOffline opId now id) w in
  result (syncManager.deleteTaskOffline opId now id) w = Ok tt /\
  db_tasks w' = db_tasks w /\
  In (SyncOperation.mk opId delete id PartialTask.empty now false)
     (unsynced w') /\
  network w' = network w.
Proof.
  intros G w'. unfold w', run, result. rewrite deleteTaskOffline_run.
  cbn [fst snd db_tasks network].
  split; [reflexivity|]. split; [apply db_delete_absent, G|].
  split; [|reflexivity].
  apply queued_unsynced; [reflexivity | apply db_put_In].
Qed.

Lemma deleteTaskOffline_of_unknown_id_witness :
  List.length (unsynced (run (syncManager.deleteTaskOffline
                         "1704186000000-k3x9q1z7a" "2024-01-02T09:00:00.000Z"
                         "t9") world_loaded)) = 1%nat /\
  db_tasks (run (syncManager.deleteTaskOffline
                   "1704186000000-k3x9q1z7a" "2024-01-02T09:00:00.000Z"
                   "t9") world_loaded) = [t1_v1].
Proof.
  pose proof (deleteTaskOffline_of_unknown_id
                "1704186000000-k3x9q1z7a" "2024-01-02T09:00:00.000Z" "t9"
                world_loaded eq_refl) as H.
  destruct H as [_ [H2 _]].
  split; [reflexivity | rewrite H2; reflexivity].
Defined.

(** ** Drains on any queue *)

Lemma set_db_syncQueue_twice (q q' : list SyncOperation.t) (w : World) :
  set_db_syncQueue q (set_db_syncQueue q' w) = set_db_syncQueue q w.
Proof. reflexivity. Qed.

Lemma markSynced_queue_only (id : string) :
  queue_only (syncQueueDB.markSynced id).
Proof.
  intros w. unfold syncQueueDB.markSynced.
  destruct (db_get SyncOperation.id id (db_syncQueue w)).
  - eexists. reflexivity.
  - exists (db_syncQueue w). destruct w; reflexivity.
Qed.

Lemma delete_queue_only (id : string) : queue_only (syncQueueDB.delete id).
Proof. intros w. eexists. reflexivity. Qed.

Lemma for_each_queue_only {A : Type} (f : A -> M unit) (l : list A) :
  (forall x, queue_only (f x)) -> queue_only (for_each f l).
Proof.
  intros Hf. induction l as [|x l IH]; intros w; simpl.
  - exists (db_syncQueue w). destruct w; reflexivity.
  - unfold bind. destruct (Hf x w) as [q Hq]. rewrite Hq.
    destruct (IH (set_db_syncQueue q w)) as [q' Hq']. rewrite Hq'.
    exists q'. reflexivity.
Qed.

Lemma clearSynced_queue_only : queue_only syncQueueDB.clearSynced.
Proof.
  intros w. unfold syncQueueDB.clearSynced, syncQueueDB.getAll, bind.
  apply for_each_queue_only. intros x. apply delete_queue_only.
Qed.

(** An answered batch call, on any queue: the answer is handed back, the
    flags say online and success, only the queue is rewritten. *)
Lemma syncWithBackend_answered_any (remote : Remote) (w : World)
      (res : SyncResult.t) :
  unsynced w <> [] ->
  on_sync remote (unsynced w) = inr res ->
  exists q,
    syncManager.syncWithBackend remote w =
    (Ok res,
     mkWorld (db_tasks w) q
             (useTaskStore.setOffline false
                (useTaskStore.setSyncStatus success
                   (useTaskStore.setSyncStatus syncing (taskStore w))))
             (network w ++ [POST_sync (unsynced w)])).
Proof.
  intros Hne He.
  unfold syncManager.syncWithBackend, try_catch.
  unfold bind at 1. unfold dispatch at 1.
  unfold bind at 1. unfold syncQueueDB.getUnsynced at 1.
  unfold bind at 1. unfold syncQueueDB.getAll at 1. unfold ret at 1.
  cbn [db_syncQueue].
  change (filter (fun op => negb (SyncOperation.synced op))
                 (db_getAll (db_syncQueue w))) with (unsynced w).
  rewrite (length_nonzero _ Hne).
  unfold bind at 1. unfold api.sync_syncOperations, fetchApi.
  rewrite He. cbn [db_tasks db_syncQueue taskStore network].
  set (w1 := mkWorld _ _ _ (network w ++ [POST_sync (unsynced w)])).
  unfold bind at 1.
  destruct (for_each_queue_only
              (fun op => syncQueueDB.markSynced (SyncOperation.id op))
              (unsynced w)
              (fun x => markSynced_queue_only (SyncOperation.id x)) w1)
    as [q1 Hq1].
  rewrite Hq1. unfold bind at 1.
  destruct (clearSynced_queue_only (set_db_syncQueue q1 w1)) as [q2 Hq2].
  rewrite Hq2. exists q2. reflexivity.
Qed.

(** X17: [syncWithBackend] always resolves, whatever the remote service
    answers and whatever the queue holds; it never writes a task, neither
    in the Local Store nor in the presentation store; it leaves the sync
    status at success or at error, and at error the queue is as it was. *)
Theorem syncWithBackend_never_rejects (remote : Remote) (w : World) :
  let w' := run (syncManager.syncWithBackend remote) w in
  (exists res, result (syncManager.syncWithBackend remote) w = Ok res) /\
  db_tasks w' = db_tasks w /\
  useTaskStore.tasks (taskStore w') = useTaskStore.tasks (taskStore w) /\
  (useTaskStore.syncStatus (taskStore w') = success \/
   useTaskStore.syncStatus (taskStore w') = error_status /\
   db_syncQueue w' = db_syncQueue w).
Proof.
  intros w'. unfold w', run, result. clear w'.
  destruct (list_eq_dec_nil (unsynced w)) as [U|U].
  - rewrite (syncWithBackend_idle remote w U). simpl.
    split; [eexists; reflexivity|]. auto.
  - destruct (on_sync remote (unsynced w)) as [e|res] eqn:E.
    + rewrite (syncWithBackend_rejected remote w e U E). simpl.
      split; [eexists; reflexivity|]. auto.
    + destruct (syncWithBackend_answered_any remote w res U E) as [q Hq].
      rewrite Hq. simpl. split; [eexists; reflexivity|]. auto.
Qed.

(** X18: once the application is marked offline, the listener of the
    [online] event clears the mark in one case only: there is an unsynced
    operation to send and the batch call is answered.  With an empty queue
    the application stays marked offline. *)
Theorem online_event_clears_offline_mark_iff (remote : Remote) (w : World) :
  useTaskStore.isOffline (taskStore w) = true ->
  (useTaskStore.isOffline
     (taskStore (run (listener remote true online_event) w)) = false
   <->
   unsynced w <> [] /\ exists res, on_sync remote (unsynced w) = inr res).
Proof.
  intros Hoff. unfold run, listener, syncManager.autoSync, bind.
  destruct (list_eq_dec_nil (unsynced w)) as [U|U].
  - rewrite (syncWithBackend_idle remote w U). simpl. rewrite Hoff.
    split; [discriminate | intros [H _]; contradiction].
  - destruct (on_sync remote (unsynced w)) as [e|res] eqn:E.
    + rewrite (syncWithBackend_rejected remote w e U E). simpl.
      split; [discriminate | intros [_ [r H]]; discriminate].
    + destruct (syncWithBackend_answered_any remote w res U E) as [q Hq].
      rewrite Hq. simpl. split; [|reflexivity].
      intros _. split; [exact U | exists res; reflexivity].
Qed.

Lemma online_event_clears_offline_mark_witness :
  useTaskStore.isOffline
    (taskStore (run (listener remote_accepting true online_event)
                    world_offline)) <> false.
Proof.
  pose proof (online_event_clears_offline_mark_iff remote_accepting
                world_offline eq_refl) as [H _].
  intros Hf. destruct (H Hf) as [Hne _]. apply Hne. reflexivity.
Defined.

(** X19: after the start-up sequence of [PWAProviders] the offline mark is
    the negation of [navigator.onLine], whether the initial load reached
    the server or not; the sequence never rejects. *)
Theorem startup_offline_mark (remote : Remote) (onLine : bool) (w : World) :
  result (PWAProviders_init remote onLine) w = Ok tt /\
  useTaskStore.isOffline
    (taskStore (run (PWAProviders_init remote onLine) w)) = negb onLine /\
  useTaskStore.loading
    (taskStore (run (PWAProviders_init remote onLine) w)) = false.
Proof.
  unfold result, run, PWAProviders_init, bind, setupAutoSync, dispatch.
  destruct (on_list remote) as [e|l] eqn:E.
  - rewrite (loadTasks_unreachable remote w e E). simpl. auto.
  - rewrite (loadTasks_listed remote w l E). simpl. auto.
Qed.

(** ** Resolving a conflict, the other cases *)

(** X20: unlike a drain, [resolveConflict] hands the failure of its remote
    call to its caller: when it rejects, the error is the very one the
    remote service answered to its call (the update of the local record
    when keeping local, the fetch when keeping remote), and the Local
    Store, the queue and the presentation store have not changed; the one
    request is in the log. *)
Theorem resolveConflict_rejection (remote : Remote) (taskId : string)
        (useLocal : bool) (w : World) (e : Exn) :
  result (syncManager.resolveConflict remote taskId useLocal) w = Throw e ->
  let w' := run (syncManager.resolveConflict remote taskId useLocal) w in
  (exists a,
      e = ApiFailure a /\
      if useLocal then
        exists localTask,
          db_get Task.id taskId (db_tasks w) = Some localTask /\
          on_update remote taskId
                    (update_body (PartialTask.of_task localTask)) = inl a /\
          network w'
          = (network w ++
             [PUT_task taskId
                (update_body (PartialTask.of_task localTask))])%list
      else
        on_get remote taskId = inl a /\
        network w' = (network w ++ [GET_task taskId])%list) /\
  db_tasks w' = db_tasks w /\
  db_syncQueue w' = db_syncQueue w /\
  taskStore w' = taskStore w.
Proof.
  unfold result, run. destruct useLocal.
  - destruct (db_get Task.id taskId (db_tasks w)) as [localTask|] eqn:G.
    + destruct (on_update remote taskId
                  (update_body (PartialTask.of_task localTask)))
        as [a|ack] eqn:U.
      * unfold_async. rewrite G, U. simpl. intros [= <-].
        split; [|auto].
        exists a. split; [reflexivity|].
        exists localTask. auto.
      * rewrite (resolveConflict_keep_local remote taskId w localTask ack G U).
        discriminate.
    + unfold_async. rewrite G. discriminate.
  - destruct (on_get remote taskId) as [a|remoteTask] eqn:Ge.
    + unfold_async. rewrite Ge. simpl. intros [= <-].
      split; [|auto].
      exists a. auto.
    + rewrite (resolveConflict_keep_remote remote taskId w remoteTask Ge).
      discriminate.
Qed.

Lemma resolveConflict_rejection_witness :
  db_tasks (run (syncManager.resolveConflict unreachable "t1" false)
                world_one_update) = db_tasks world_one_update /\
  on_get unreachable "t1" = inl network_error.
Proof.
  pose proof (resolveConflict_rejection unreachable "t1" false
                world_one_update (ApiFailure network_error) eq_refl) as H.
  destruct H as [[a [Ha [Hg _]]] [H _]].
  injection Ha as <-. split; [exact H | exact Hg].
Defined.

(** X21: after keeping the remote record of a task that is shown, the
    Local Store holds the server's version while the presentation store
    shows the server's title and completed flag under the version it
    showed before plus one. *)
Theorem keep_remote_shows_bumped_version (remote : Remote) (taskId : string)
        (w : World) (shown remoteTask : Task.t) :
  shown_task taskId w = Some shown ->
  on_get remote taskId = inr remoteTask ->
  Task.id remoteTask = taskId ->
  let w' := run (syncManager.resolveConflict remote taskId false) w in
  observed_version taskId w' = Some (Task.version remoteTask) /\
  exists entry,
    shown_task taskId w' = Some entry /\
    Task.version entry = Task.version shown + 1 /\
    Task.title entry = Task.title remoteTask /\
    Task.completed entry = Task.completed remoteTask.
Proof.
  intros S G Hid w'. unfold w', run, observed_version, shown_task in *.
  rewrite (resolveConflict_keep_remote remote taskId w remoteTask G).
  cbn [snd db_tasks taskStore useTaskStore.updateTask useTaskStore.tasks].
  split.
  - rewrite db_get_put, Hid, String.eqb_refl. reflexivity.
  - exists (with_version (Task.version shown + 1)
              (spread shown (PartialTask.of_task remoteTask))).
    split; [|split; [reflexivity | split; reflexivity]].
    rewrite find_map_same.
    + rewrite S. simpl.
      destruct (find_some _ _ S) as [_ E]. rewrite E. reflexivity.
    + intros x.
      destruct (String.eqb (Task.id x) taskId) eqn:E; [|exact E].
      simpl. rewrite Hid. apply String.eqb_refl.
Qed.

Lemma keep_remote_shows_bumped_version_witness :
  observed_version "t1"
    (run (syncManager.resolveConflict (with_on_get t1_ack unreachable)
                                      "t1" false) world_one_update)
  = Some 4 /\
  option_map Task.version
    (shown_task "t1"
       (run (syncManager.resolveConflict (with_on_get t1_ack unreachable)
                                         "t1" false) world_one_update))
  = Some 3.
Proof.
  pose proof (keep_remote_shows_bumped_version
                (with_on_get t1_ack unreachable) "t1" world_one_update
                (with_version 2 (spread t1_v1 mark_done)) t1_ack
                eq_refl eq_refl eq_refl) as H.
  destruct H as [H1 [entry [H2 [H3 _]]]].
  split; [exact H1|]. rewrite H2. simpl. rewrite H3. reflexivity.
Defined.

(** ** The presentation store *)

Lemma find_none_iff {A : Type} (p : A -> bool) (l : list A) :
  find p l = None <-> forall x, In x l -> p x = false.
Proof.
  split; [apply find_none|].
  induction l as [|x l IH]; simpl; intros H; [reflexivity|].
  rewrite (H x (or_introl eq_refl)). apply IH. intros y Hy. apply H. auto.
Qed.

Lemma filter_all {A : Type} (p : A -> bool) (l : list A) :
  (forall x, In x l -> p x = true) -> filter p l = l.
Proof.
  induction l as [|x l IH]; simpl; intros H; [reflexivity|].
  rewrite (H x (or_introl eq_refl)). f_equal. apply IH.
  intros y Hy. apply H. auto.
Qed.

(** X22: [addTask] followed by [deleteTask] of the same task gives back the
    store as it was, provided no task with that id was shown before;
    [deleteTask] removes every entry that has the id. *)
Theorem addTask_then_deleteTask (k : Task.t) (s : useTaskStore.State) :
  find (fun t => String.eqb (Task.id t) (Task.id k)) (useTaskStore.tasks s)
  = None ->
  useTaskStore.deleteTask (Task.id k) (useTaskStore.addTask k s) = s.
Proof.
  intros H. destruct s as [l ld er st off].
  unfold useTaskStore.deleteTask, useTaskStore.addTask. simpl in *.
  f_equal. rewrite filter_app. simpl. rewrite String.eqb_refl. simpl.
  rewrite app_nil_r. apply filter_all. intros x Hx.
  rewrite (proj1 (find_none_iff _ _) H x Hx). reflexivity.
Qed.

Lemma addTask_then_deleteTask_witness :
  useTaskStore.deleteTask "srv-42"
    (useTaskStore.addTask srv_42 (taskStore world_loaded))
  = taskStore world_loaded.
Proof.
  apply (addTask_then_deleteTask srv_42 (taskStore world_loaded)).
  reflexivity.
Defined.

(** X23: [updateTask] for an id that is not shown changes nothing. *)
Theorem updateTask_on_hidden_id (id : string) (updates : PartialTask.t)
        (s : useTaskStore.State) :
  find (fun t => String.eqb (Task.id t) id) (useTaskStore.tasks s) = None ->
  useTaskStore.updateTask id updates s = s.
Proof.
  destruct s as [l ld er st off]. unfold useTaskStore.updateTask. simpl.
  intros H. f_equal. etransitivity; [|apply map_id].
  apply map_ext_in. intros x Hx.
  rewrite (proj1 (find_none_iff _ _) H x Hx). reflexivity.
Qed.

Lemma updateTask_on_hidden_id_witness :
  useTaskStore.updateTask "t9" mark_done (taskStore world_loaded)
  = taskStore world_loaded.
Proof.
  apply (updateTask_on_hidden_id "t9" mark_done (taskStore world_loaded)).
  reflexivity.
Defined.

(** X24: [updateTask] for an id that is shown raises the version of the
    entry by one whatever the update holds, a [version] of its own
    included; with an empty update nothing else of the entry changes. *)
Theorem updateTask_bumps_version (id : string) (updates : PartialTask.t)
        (s : useTaskStore.State) (shown : Task.t) :
  find (fun t => String.eqb (Task.id t) id) (useTaskStore.tasks s)
  = Some shown ->
  exists entry,
    In entry (useTaskStore.tasks (useTaskStore.updateTask id updates s)) /\
    Task.version entry = Task.version shown + 1 /\
    (updates = PartialTask.empty ->
     entry = with_version (Task.version shown + 1) shown).
Proof.
  destruct s as [l ld er st off]. unfold useTaskStore.updateTask. simpl.
  intros H. destruct (find_some _ _ H) as [Hin E].
  exists (with_version (Task.version shown + 1) (spread shown updates)).
  split; [|split; [reflexivity|]].
  - apply in_map_iff. exists shown. rewrite E. auto.
  - intros ->. destruct shown; reflexivity.
Qed.

Lemma updateTask_bumps_version_witness :
  In (with_version 2 t1_v1)
     (useTaskStore.tasks
        (useTaskStore.updateTask "t1" PartialTask.empty
                                 (taskStore world_loaded))).
Proof.
  pose proof (updateTask_bumps_version "t1" PartialTask.empty
                (taskStore world_loaded) t1_v1 eq_refl) as H.
  destruct H as [entry [Hin [_ He]]].
  rewrite (He eq_refl) in Hin. exact Hin.
Defined.

(** ** Drains and loads in sequence *)

(** X25: on a well-formed queue a drain with something to send posts one
    batch: exactly the operations of the queue that are not flagged
    synced, in ascending order of their ids. *)
Theorem drain_batch_in_id_order (remote : Remote) (w : World) :
  wf_store SyncOperation.id (db_syncQueue w) ->
  unsynced w <> [] ->
  exists ops,
    network (run (syncManager.syncWithBackend remote) w)
    = (network w ++ [POST_sync ops])%list /\
    StronglySorted (key_lt SyncOperation.id) ops /\
    (forall op, In op ops <->
                In op (db_syncQueue w) /\ SyncOperation.synced op = false).
Proof.
  intros Hwf Hne. exists (unsynced w). split; [|split].
  - rewrite drain_request. destruct (unsynced w); [congruence | reflexivity].
  - apply unsynced_in_key_order, Hwf.
  - intros op. unfold unsynced, db_getAll. rewrite filter_In.
    destruct (SyncOperation.synced op); simpl; intuition congruence.
Qed.

Lemma drain_batch_in_id_order_witness :
  exists ops,
    network (run (syncManager.syncWithBackend unreachable) world_two_updates)
    = (network world_two_updates ++ [POST_sync ops])%list /\
    StronglySorted (key_lt SyncOperation.id) ops.
Proof.
  pose proof (drain_batch_in_id_order unreachable world_two_updates) as H.
  destruct H as [ops [H1 [H2 _]]].
  - vm_compute. repeat constructor.
  - discriminate.
  - exists ops. split; assumption.
Defined.

(** X26: a task created offline keeps its temporary id and the owner
    'temp' in the Local Store after the drain that sent its create
    operation was answered; the queue is then empty. *)
Theorem synced_task_keeps_temporary_id
        (remote : Remote) (tempId now opId : string) (data : TaskData)
        (w : World) (res : SyncResult.t) :
  wf_store SyncOperation.id (db_syncQueue w) ->
  let w1 := run (syncManager.createTaskOffline tempId now opId data) w in
  on_sync remote (unsynced w1) = inr res ->
  let w2 := run (syncManager.syncWithBackend remote) w1 in
  db_get Task.id tempId (db_tasks w2)
  = Some (Task.mk tempId (td_title data) (td_description data) false
                  now now "temp" 1) /\
  db_syncQueue w2 = [] /\
  network w2 = (network w ++ [POST_sync (unsynced w1)])%list.
Proof.
  intros Hwf w1 Hres w2.
  assert (Hw1 : w1 = mkWorld
            (db_put Task.id (Task.mk tempId (td_title data)
                               (td_description data) false now now "temp" 1)
                    (db_tasks w))
            (db_put SyncOperation.id
               (SyncOperation.mk opId create tempId
                  (PartialTask.of_task
                     (Task.mk tempId (td_title data) (td_description data)
                              false now now "temp" 1)) now false)
               (db_syncQueue w))
            (useTaskStore.addTask
               (Task.mk tempId (td_title data) (td_description data) false
                        now now "temp" 1) (taskStore w))
            (network w)).
  { unfold w1, run. rewrite createTaskOffline_run. reflexivity. }
  assert (Hwf1 : wf_store SyncOperation.id (db_syncQueue w1)).
  { rewrite Hw1. simpl. apply wf_put, Hwf. }
  assert (Hne : unsynced w1 <> []).
  { intros HU.
    assert (Hin : In (SyncOperation.mk opId create tempId
                        (PartialTask.of_task
                           (Task.mk tempId (td_title data)
                                    (td_description data) false now now
                                    "temp" 1)) now false) (unsynced w1)).
    { apply queued_unsynced; [reflexivity|]. rewrite Hw1. simpl.
      apply db_put_In. }
    rewrite HU in Hin. destruct Hin. }
  unfold w2, run.
  rewrite (syncWithBackend_answered remote w1 res Hwf1 Hne Hres).
  cbn [snd db_tasks db_syncQueue network].
  split; [|split; [reflexivity|]].
  - rewrite Hw1. simpl. rewrite db_get_put. simpl.
    rewrite String.eqb_refl. reflexivity.
  - rewrite Hw1 at 1. reflexivity.
Qed.

Lemma synced_task_keeps_temporary_id_witness :
  option_map Task.userId
    (db_get Task.id "1704276000000-p0o9i8u7y"
       (db_tasks
          (run (syncManager.syncWithBackend remote_accepting)
               (run (syncManager.createTaskOffline
                       "1704276000000-p0o9i8u7y" "2024-01-03T10:00:00.000Z"
                       "1704276000001-q1w2e3r4t" (mkTaskData "Buy milk" None))
                    world_loaded)))) = Some "temp".
Proof.
  pose proof (synced_task_keeps_temporary_id remote_accepting
                "1704276000000-p0o9i8u7y" "2024-01-03T10:00:00.000Z"
                "1704276000001-q1w2e3r4t" (mkTaskData "Buy milk" None)
                world_loaded (SyncResult.mk 2 [])) as H.
  destruct H as [H _].
  - vm_compute. repeat constructor.
  - reflexivity.
  - rewrite H. reflexivity.
Defined.

Lemma last_with_id_none (k : string) (l : list Task.t) :
  (forall x, In x l -> Task.id x <> k) -> last_with_id k l = None.
Proof.
  intros H. unfold last_with_id. apply find_none_iff. intros x Hx.
  apply in_rev in Hx. apply String.eqb_neq. intros E.
  apply (H x Hx). symmetry. exact E.
Qed.

(** X27: a task the Local Store holds under an id the server does not list
    (a task created offline and not yet synced) is still held after a
    successful load, but the presentation store does not show it any
    more. *)
Theorem load_hides_unlisted_task (remote : Remote) (w : World)
        (id : string) (pending : Task.t) (l : list Task.t) :
  db_get Task.id id (db_tasks w) = Some pending ->
  on_list remote = inr l ->
  (forall x, In x l -> Task.id x <> id) ->
  let w' := run (syncManager.loadTasks remote) w in
  db_get Task.id id (db_tasks w') = Some pending /\
  shown_task id w' = None /\
  db_syncQueue w' = db_syncQueue w.
Proof.
  intros G L Hl w'. unfold w', run, shown_task.
  rewrite (loadTasks_listed remote w l L). simpl.
  split; [|split; [|reflexivity]].
  - rewrite db_get_bulk, (last_with_id_none id l Hl). exact G.
  - apply find_none_iff. intros x Hx. apply String.eqb_neq. apply Hl, Hx.
Qed.

Lemma load_hides_unlisted_task_witness :
  shown_task "1704276000000-p0o9i8u7y" world_milk_offline <> None /\
  shown_task "1704276000000-p0o9i8u7y"
    (run (syncManager.loadTasks (with_on_list [t1_v1] unreachable))
         world_milk_offline) = None /\
  db_get Task.id "1704276000000-p0o9i8u7y"
    (db_tasks (run (syncManager.loadTasks (with_on_list [t1_v1] unreachable))
                   world_milk_offline)) <> None.
Proof.
  pose proof (load_hides_unlisted_task (with_on_list [t1_v1] unreachable)
                world_milk_offline "1704276000000-p0o9i8u7y"
                (Task.mk "1704276000000-p0o9i8u7y" "Buy milk" None false
                         "2024-01-03T10:00:00.000Z" "2024-01-03T10:00:00.000Z"
                         "temp" 1) [t1_v1]) as H.
  destruct H as [H1 [H2 _]].
  - reflexivity.
  - reflexivity.
  - intros x [<-|[]]. discriminate.
  - split; [discriminate|]. split; [exact H2|]. rewrite H1. discriminate.
Defined.

(** X28: loading twice in a row from the same answer of the remote service
    leaves the Local Store and the presentation store as loading once. *)
Theorem loadTasks_twice (remote : Remote) (w : World) :
  wf_store Task.id (db_tasks w) ->
  let w1 := run (syncManager.loadTasks remote) w in
  let w2 := run (syncManager.loadTasks remote) w1 in
  db_tasks w2 = db_tasks w1 /\
  taskStore w2 = taskStore w1 /\
  db_syncQueue w2 = db_syncQueue w1.
Proof.
  intros Hwf w1 w2. unfold w2, w1, run.
  destruct (on_list remote) as [e|l] eqn:E.
  - rewrite (loadTasks_unreachable remote w e E). cbn [snd].
    rewrite (loadTasks_unreachable remote _ e E). simpl. auto.
  - rewrite (loadTasks_listed remote w l E). cbn [snd].
    rewrite (loadTasks_listed remote _ l E). simpl.
    split; [|auto].
    apply (store_ext Task.id).
    + apply wf_bulk, wf_bulk, Hwf.
    + apply wf_bulk, Hwf.
    + intros k. rewrite !db_get_bulk.
      destruct (last_with_id k l); reflexivity.
Qed.

Lemma loadTasks_twice_witness :
  db_tasks (run (syncManager.loadTasks remote_listing_t2)
                (run (syncManager.loadTasks remote_listing_t2) world_loaded))
  = db_tasks (run (syncManager.loadTasks remote_listing_t2) world_loaded).
Proof.
  pose proof (loadTasks_twice remote_listing_t2 world_loaded) as H.
  destruct H as [H _].
  - vm_compute. repeat constructor.
  - exact H.
Defined.

(** ** The authentication store *)

(** X29: whatever actions of the authentication store are called, in
    whatever order, from the initial state, [isAuthenticated] is true
    exactly when a user is set; a trace that ends with [logout] leaves no
    user and no tokens. *)
Theorem auth_store_invariant (trace : list AuthAction) :
  let s := fold_left auth_step trace useAuthStore.initial in
  useAuthStore.isAuthenticated s = useAuthStore.truthy (useAuthStore.user s) /\
  (forall before, trace = (before ++ [Logout])%list ->
                  useAuthStore.user s = None /\ useAuthStore.tokens s = None).
Proof.
  intros s. unfold s. clear s. split.
  - induction trace as [|a trace IH] using rev_ind; [reflexivity|].
    rewrite fold_left_app. simpl.
    destruct a; simpl; try reflexivity. exact IH.
  - intros before ->. rewrite fold_left_app. simpl. auto.
Qed.
